(** * Sticky notes: a shallow embedding of the [notes] Django application

    The application is three declarations over the Django framework:
    the [Note] model ([notes/models.py]), the [NoteForm] model form
    ([notes/forms.py]) and five function-based views ([notes/views.py]).
    The Python sources only declare the model fields and call the
    framework; the behaviour those calls have (form cleaning, the ORM,
    [get_object_or_404], [render], [redirect]) is Django's, and is written
    out here next to the declaration that triggers it.

    - Python [str] values are lists of Unicode code points.
    - The [notes_note] table is a finite map from primary keys to rows,
      together with the counter the default SQLite backend keeps for an
      [AUTOINCREMENT] key.
    - Views are computations in a state-and-exception monad over the
      database; [Http404] is the exception the views raise themselves,
      [ValueError] and [AttributeError] the ones [save] and [delete] can
      raise. *)

From stdpp Require Import base option list gmap strings pretty sorting.

Open Scope Z_scope.

(** ** Text *)

(** A Python [str]: a sequence of code points. [len] is [length]. *)
Abbreviation text := (list N).

(** A literal of the source, code point by code point. *)
Definition u (s : string) : text :=
  Ascii.N_of_ascii <$> String.list_ascii_of_string s.

(** [str.isspace] for one code point (CPython's [_PyUnicode_IsWhitespace]). *)
Definition isspace (c : N) : bool :=
  ((0x09 <=? c) && (c <=? 0x0D) || (0x1C <=? c) && (c <=? 0x20)
   || (c =? 0x85) || (c =? 0xA0) || (c =? 0x1680)
   || (0x2000 <=? c) && (c <=? 0x200A)
   || (c =? 0x2028) || (c =? 0x2029) || (c =? 0x202F)
   || (c =? 0x205F) || (c =? 0x3000))%N.

Fixpoint lstrip (s : text) : text :=
  match s with
  | c :: s' => if isspace c then lstrip s' else s
  | [] => []
  end.

Definition rstrip (s : text) : text := reverse (lstrip (reverse s)).

(** [str.strip()] with no argument. *)
Definition strip (s : text) : text := rstrip (lstrip s).

(** ** Requests *)

(** [request.POST]: the submitted pairs in the order they were parsed. A key
    may occur several times. *)
Abbreviation QueryDict := (list (string * text)).

(** [QueryDict.get(key)]: the last value submitted under [key], [None] when
    the key does not occur. *)
Fixpoint QueryDict_get (key : string) (d : QueryDict) : option text :=
  match d with
  | [] => None
  | (k, v) :: d' =>
      match QueryDict_get key d' with
      | Some v' => Some v'
      | None => if decide (k = key) then Some v else None
      end
  end.

Record HttpRequest := {
  method : string;
  POST : QueryDict
}.

(** ** Validation errors *)

(** The [ValidationError]s the fields of this application can raise, by
    their Django [code]. *)
Inductive ValidationError :=
  | required_error
  | max_length_error (limit_value show_value : nat)
  | null_characters_not_allowed
  | blank_error.

Global Instance ValidationError_eq_dec : EqDecision ValidationError.
Proof. solve_decision. Defined.

(** The rendered message of an error (English catalogue). *)
Definition message (e : ValidationError) : string :=
  match e with
  | required_error => "This field is required."
  | max_length_error limit_value show_value =>
      "Ensure this value has at most " +:+ pretty limit_value
      +:+ (if decide (limit_value = 1%nat) then " character" else " characters")
      +:+ " (it has " +:+ pretty show_value +:+ ")."
  | null_characters_not_allowed => "Null characters are not allowed."
  | blank_error => "This field cannot be blank."
  end.

(** ** The Note model ([models.py]) *)

(** A model field as declared in the model class. *)
Record ModelField := {
  name : string;
  max_length : option nat;
  blank : bool
}.

(** [models.CharField(max_length=n)] and [models.TextField()]; [blank]
    defaults to [False]. *)
Definition models_CharField (name : string) (max_length : nat) : ModelField :=
  {| name := name; max_length := Some max_length; blank := false |}.
Definition models_TextField (name : string) : ModelField :=
  {| name := name; max_length := None; blank := false |}.

Module Note_meta.
Definition title : ModelField := models_CharField "title" 255.
Definition content : ModelField := models_TextField "content".
End Note_meta.

(** A [Note] instance in memory. [pk] is [None] until the instance has been
    saved. *)
Record Note := {
  pk : option Z;
  title : text;
  content : text
}.

Global Instance Note_eq_dec : EqDecision Note.
Proof. solve_decision. Defined.

(** [Note()]: a fresh unsaved instance; both fields default to the empty
    string. *)
Definition Note_new : Note := {| pk := None; title := []; content := [] |}.

(** [Note.__str__]. *)
Definition Note_str (n : Note) : text := title n.

Definition getattr (n : Note) (f : ModelField) : text :=
  if decide (name f = "title") then title n else content n.

Definition setattr (n : Note) (f : ModelField) (v : text) : Note :=
  if decide (name f = "title")
  then {| pk := pk n; title := v; content := content n |}
  else {| pk := pk n; title := title n; content := v |}.

(** [MaxLengthValidator(limit)(value)]. *)
Definition MaxLengthValidator (limit : nat) (value : text) : list ValidationError :=
  if (limit <? length value)%nat
  then [max_length_error limit (length value)] else [].

(** [ProhibitNullCharactersValidator()(value)]. *)
Definition ProhibitNullCharactersValidator (value : text) : list ValidationError :=
  if decide (0%N ∈ value) then [null_characters_not_allowed] else [].

(** [models.Field.clean(value, instance)] for a text column: the blank check
    of [validate], then the field's validators. *)
Definition ModelField_clean (f : ModelField) (value : text) : list ValidationError :=
  if decide (value = []) then
    (if blank f then [] else [blank_error])
  else
    match max_length f with
    | Some n => MaxLengthValidator n value
    | None => []
    end.

(** ** Form fields *)

(** [forms.CharField]. *)
Record CharField := {
  required : bool;
  form_max_length : option nat;
  strip_value : bool
}.

(** [models.Field.formfield()]: [required = not blank], the model's
    [max_length] is passed on, [strip] keeps its default [True]. *)
Definition formfield (f : ModelField) : CharField :=
  {| required := negb (blank f);
     form_max_length := max_length f;
     strip_value := true |}.

(** [CharField.to_python]: a missing value and the empty string both become
    the empty string; anything else is stripped. *)
Definition to_python (f : CharField) (value : option text) : text :=
  match value with
  | None => []
  | Some v => if strip_value f then strip v else v
  end.

(** [CharField.run_validators]: skipped on the empty value; otherwise the
    errors of every validator, in the order the validators were added. *)
Definition run_validators (f : CharField) (value : text) : list ValidationError :=
  if decide (value = []) then []
  else
    match form_max_length f with
    | Some n => MaxLengthValidator n value
    | None => []
    end ++ ProhibitNullCharactersValidator value.

(** [Field.clean]: [to_python], [validate], [run_validators]. The result is
    the cleaned value, or the errors raised. *)
Definition clean (f : CharField) (value : option text)
  : list ValidationError + text :=
  let value := to_python f value in
  if bool_decide (value = []) && required f then inl [required_error]
  else
    match run_validators f value with
    | [] => inr value
    | errors => inl errors
    end.

(** ** The model form ([forms.py]) *)

Module NoteForm_Meta.
(** [fields = ["title", "content"]] of [model = Note]. *)
Definition fields : list ModelField := [Note_meta.title; Note_meta.content].
End NoteForm_Meta.

(** A [NoteForm]: [data] is [None] for an unbound form,
    [instance] is the [Note] the form edits ([Note()] when none is given). *)
Record NoteForm := {
  data : option QueryDict;
  instance : Note
}.

Definition is_bound (form : NoteForm) : bool := bool_decide (is_Some (data form)).

(** What [full_clean] leaves on a form: the error dictionary, the cleaned
    values and the instance the cleaned values were applied to. *)
Record Cleaned := {
  errors : gmap string (list ValidationError);
  cleaned_data : gmap string text;
  cleaned_instance : Note
}.

(** [add_error(field, errors)]: the errors are appended to those of the
    field, and the field leaves [cleaned_data]. *)
Definition add_error (field : string) (es : list ValidationError) (st : Cleaned)
  : Cleaned :=
  {| errors := <[field := default [] (errors st !! field) ++ es]> (errors st);
     cleaned_data := delete field (cleaned_data st);
     cleaned_instance := cleaned_instance st |}.

(** One round of the loop of [_clean_fields]. *)
Definition clean_field (d : QueryDict) (st : Cleaned) (f : ModelField) : Cleaned :=
  match clean (formfield f) (QueryDict_get (name f) d) with
  | inr value =>
      {| errors := errors st;
         cleaned_data := <[name f := value]> (cleaned_data st);
         cleaned_instance := cleaned_instance st |}
  | inl es => add_error (name f) es st
  end.

Definition _clean_fields (d : QueryDict) (inst : Note) : Cleaned :=
  foldl (clean_field d)
        {| errors := ∅; cleaned_data := ∅; cleaned_instance := inst |}
        NoteForm_Meta.fields.

(** [construct_instance]: every form field that has a cleaned value is
    written to the instance. *)
Definition construct_instance (cd : gmap string text) (inst : Note) : Note :=
  foldl (λ n f, match cd !! name f with
                | Some value => setattr n f value
                | None => n
                end)
        inst NoteForm_Meta.fields.

(** [Model.clean_fields(exclude)]: the model-level validation of every field
    that is not excluded. *)
Definition clean_fields (exclude : gmap string (list ValidationError)) (n : Note)
  : list (string * list ValidationError) :=
  omap (λ f, match exclude !! name f with
             | Some _ => None
             | None =>
                 match ModelField_clean f (getattr n f) with
                 | [] => None
                 | es => Some (name f, es)
                 end
             end)
       NoteForm_Meta.fields.

(** [_post_clean]: the fields that failed form validation are excluded, the
    instance is constructed from the cleaned values and validated, and its
    errors are added to the form. *)
Definition _post_clean (st : Cleaned) : Cleaned :=
  let inst := construct_instance (cleaned_data st) (cleaned_instance st) in
  foldl (λ st e, add_error e.1 e.2 st)
        {| errors := errors st;
           cleaned_data := cleaned_data st;
           cleaned_instance := inst |}
        (clean_fields (errors st) inst).

(** [full_clean] of a form bound to [d]. *)
Definition full_clean (d : QueryDict) (inst : Note) : Cleaned :=
  _post_clean (_clean_fields d inst).

(** [form.errors]: empty on an unbound form. *)
Definition form_errors (form : NoteForm) : gmap string (list ValidationError) :=
  match data form with
  | Some d => errors (full_clean d (instance form))
  | None => ∅
  end.

(** [form.is_valid()]. *)
Definition is_valid (form : NoteForm) : bool :=
  is_bound form && bool_decide (form_errors form = ∅).

(** The form as [full_clean] leaves it: the instance has received the
    cleaned values of the fields that passed. An unbound form is not
    cleaned. *)
Definition full_cleaned (form : NoteForm) : NoteForm :=
  match data form with
  | Some d =>
      {| data := Some d;
         instance := cleaned_instance (full_clean d (instance form)) |}
  | None => form
  end.

(** [form.is_valid()] as a view runs it: the verdict, and the form after
    the cleaning the call has done on it. *)
Definition run_is_valid (form : NoteForm) : bool * NoteForm :=
  (is_valid form, full_cleaned form).

(** The messages the form shows under a field. *)
Definition field_messages (form : NoteForm) (field : string) : list string :=
  message <$> default [] (form_errors form !! field).

(** [NoteForm(request.POST)], [NoteForm(request.POST, instance=note)],
    [NoteForm()] and [NoteForm(instance=note)]. *)
Definition NoteForm_bound (d : QueryDict) (inst : option Note) : NoteForm :=
  {| data := Some d; instance := default Note_new inst |}.
Definition NoteForm_unbound (inst : option Note) : NoteForm :=
  {| data := None; instance := default Note_new inst |}.

(** ** The database *)

(** A row of the [notes_note] table, without its key. *)
Record Row := {
  row_title : text;
  row_content : text
}.

Global Instance Row_eq_dec : EqDecision Row.
Proof. solve_decision. Defined.

(** The table, keyed by [id], and the largest key the table ever held
    (the [sqlite_sequence] entry of an [AUTOINCREMENT] key). Keys are
    unbounded integers. *)
Record Database := {
  notes_note : gmap Z Row;
  sqlite_sequence : Z
}.

Definition Database_empty : Database :=
  {| notes_note := ∅; sqlite_sequence := 0 |}.

Definition row_of (n : Note) : Row :=
  {| row_title := title n; row_content := content n |}.

Definition from_db (id : Z) (r : Row) : Note :=
  {| pk := Some id; title := row_title r; content := row_content r |}.

(** The largest key in the table, 0 when the table is empty. *)
Definition max_rowid (t : gmap Z Row) : Z :=
  map_fold (λ id _ m, id `max` m) 0 t.

(** The key an insert without explicit key receives: one more than every
    key the table holds or ever held. *)
Definition next_rowid (db : Database) : Z :=
  1 + (sqlite_sequence db `max` max_rowid (notes_note db)).

(** ** Views as computations on the database *)

Inductive exn := Http404 | ValueError | AttributeError.

Inductive outcome (A : Type) :=
  | Return (a : A)
  | Raise (e : exn).
Arguments Return {A} a.
Arguments Raise {A} e.

Definition View (A : Type) : Type := Database → outcome A * Database.

Definition ret {A} (a : A) : View A := λ db, (Return a, db).

Definition bind {A B} (m : View A) (k : A → View B) : View B :=
  λ db, match m db with
        | (Return a, db') => k a db'
        | (Raise e, db') => (Raise e, db')
        end.

Notation "'do' x <- m 'in' k" := (bind m (λ x, k))
  (at level 10, x name, m at level 100, k at level 200, only parsing).

(** [get_object_or_404(Note, pk=pk)]. *)
Definition get_object_or_404 (id : Z) : View Note :=
  λ db, match notes_note db !! id with
        | Some r => (Return (from_db id r), db)
        | None => (Raise Http404, db)
        end.

(** The order of [ORDER BY id]. *)
Definition id_le (x y : Z * Row) : Prop := x.1 ≤ y.1.

Global Instance id_le_dec : RelDecision id_le.
Proof. intros x y; unfold id_le; apply _. Defined.

(** [Note.objects.all().order_by("id")], evaluated. *)
Definition Note_objects_all_order_by_id : View (list Note) :=
  λ db, (Return (uncurry from_db <$>
                   merge_sort id_le (map_to_list (notes_note db))),
         db).

(** [Model.save()]. An instance without key is inserted under the next key.
    An instance with a key updates its row, and is inserted under that key
    when the row is gone. *)
Definition Note_save (n : Note) : View Note :=
  λ db, match pk n with
        | None =>
            let id := next_rowid db in
            (Return {| pk := Some id; title := title n; content := content n |},
             {| notes_note := <[id := row_of n]> (notes_note db);
                sqlite_sequence := id |})
        | Some id =>
            (Return n,
             {| notes_note := <[id := row_of n]> (notes_note db);
                sqlite_sequence :=
                  match notes_note db !! id with
                  | Some _ => sqlite_sequence db
                  | None => sqlite_sequence db `max` id
                  end |})
        end.

(** [Model.delete()]. *)
Definition Note_delete (n : Note) : View () :=
  λ db, match pk n with
        | Some id =>
            (Return (),
             {| notes_note := delete id (notes_note db);
                sqlite_sequence := sqlite_sequence db |})
        | None => (Raise ValueError, db)
        end.

(** [form.save()]: refuses a form with errors, otherwise saves the
    constructed instance and returns it. An unbound form has no errors and
    no [cleaned_data]: its instance is saved, and the many-to-many step that
    follows raises [AttributeError]. *)
Definition NoteForm_save (form : NoteForm) : View Note :=
  match data form with
  | Some d =>
      let st := full_clean d (instance form) in
      if bool_decide (errors st = ∅) then Note_save (cleaned_instance st)
      else λ db, (Raise ValueError, db)
  | None => λ db, (Raise AttributeError, (Note_save (instance form) db).2)
  end.

(** ** Responses *)

(** The context dictionaries the views pass to their templates. *)
Inductive Context :=
  | ctx_notes (notes : list Note)
  | ctx_note (note : Note)
  | ctx_form (form : NoteForm).

(** A response: a rendered template (the template files are not part of
    the model, so a page is its template name and context), a redirect to
    a named URL pattern, or an error page. *)
Inductive HttpResponse :=
  | render (template_name : string) (context : Context)
  | redirect (to : string) (pk : option Z)
  | HttpResponseNotFound
  | HttpResponseServerError.

Definition status_code (r : HttpResponse) : Z :=
  match r with
  | render _ _ => 200
  | redirect _ _ => 302
  | HttpResponseNotFound => 404
  | HttpResponseServerError => 500
  end.

(** ** The views ([views.py]) *)

Definition note_list (request : HttpRequest) : View HttpResponse :=
  do notes <- Note_objects_all_order_by_id in
  ret (render "notes/note_list.html" (ctx_notes notes)).

Definition note_detail (request : HttpRequest) (pk : Z) : View HttpResponse :=
  do note <- get_object_or_404 pk in
  ret (render "notes/note_detail.html" (ctx_note note)).

Definition note_create (request : HttpRequest) : View HttpResponse :=
  if decide (method request = "POST") then
    let form := NoteForm_bound (POST request) None in
    let (valid, form) := run_is_valid form in
    if valid then
      do note <- NoteForm_save form in
      ret (redirect "note_detail" (pk note))
    else ret (render "notes/note_form.html" (ctx_form form))
  else
    let form := NoteForm_unbound None in
    ret (render "notes/note_form.html" (ctx_form form)).

Definition note_update (request : HttpRequest) (pk_ : Z) : View HttpResponse :=
  do note <- get_object_or_404 pk_ in
  if decide (method request = "POST") then
    let form := NoteForm_bound (POST request) (Some note) in
    let (valid, form) := run_is_valid form in
    if valid then
      do note <- NoteForm_save form in
      ret (redirect "note_detail" (pk note))
    else ret (render "notes/note_form.html" (ctx_form form))
  else
    let form := NoteForm_unbound (Some note) in
    ret (render "notes/note_form.html" (ctx_form form)).

Definition note_delete (request : HttpRequest) (pk : Z) : View HttpResponse :=
  do note <- get_object_or_404 pk in
  if decide (method request = "POST") then
    do _ <- Note_delete note in
    ret (redirect "note_list" None)
  else ret (render "notes/note_confirm_delete.html" (ctx_note note)).

(** The request handler around a view: an uncaught [Http404] becomes the
    404 page, any other exception the 500 page. *)
Definition get_response (view : View HttpResponse) (db : Database)
  : HttpResponse * Database :=
  match view db with
  | (Return response, db') => (response, db')
  | (Raise Http404, db') => (HttpResponseNotFound, db')
  | (Raise ValueError, db') => (HttpResponseServerError, db')
  | (Raise AttributeError, db') => (HttpResponseServerError, db')
  end.

(** The routes of the application. *)
Inductive Route :=
  | route_list
  | route_detail (pk : Z)
  | route_create
  | route_update (pk : Z)
  | route_delete (pk : Z).

Definition dispatch (r : Route) (request : HttpRequest) : View HttpResponse :=
  match r with
  | route_list => note_list request
  | route_detail pk => note_detail request pk
  | route_create => note_create request
  | route_update pk => note_update request pk
  | route_delete pk => note_delete request pk
  end.

Definition serve (r : Route) (request : HttpRequest) (db : Database)
  : HttpResponse * Database :=
  get_response (dispatch r request) db.

(** The database after a sequence of requests. *)
Definition run (reqs : list (Route * HttpRequest)) (db : Database) : Database :=
  foldl (λ db rq, (serve rq.1 rq.2 db).2) db reqs.

(** ** Vocabulary of the specification *)

(** The value submitted under a field, trimmed; [None] when the field is
    absent from the submission. *)
Definition trimmed (field : string) (d : QueryDict) : option text :=
  strip <$> QueryDict_get field d.

(** A field is missing when it is absent or empty after trimming. *)
Definition missing (field : string) (d : QueryDict) : Prop :=
  trimmed field d = None ∨ trimmed field d = Some [].

Global Instance missing_dec field d : Decision (missing field d).
Proof. unfold missing; apply _. Defined.

(** The verdict of the validator on a submission. *)
Definition valid_submission (d : QueryDict) : bool :=
  is_valid (NoteForm_bound d None).

(** A submission: a [POST] request carrying [d]. *)
Definition submission (d : QueryDict) : HttpRequest :=
  {| method := "POST"; POST := d |}.

(** Every stored title is within the limit declared for [Note.title]. *)
Definition titles_within_max_length (db : Database) : Prop :=
  ∀ id row n,
    notes_note db !! id = Some row →
    max_length Note_meta.title = Some n →
    (length (row_title row) ≤ n)%nat.

(** ** Sample data *)

(** The submission and the stored note of the test suite. *)
Definition new_note_data : QueryDict :=
  [("title", u "New Note"); ("content", u "New note content.")].

Definition initial_db : Database :=
  {| notes_note :=
       {[ 1 := {| row_title := u "Initial Note";
                  row_content := u "Initial note content." |} ]};
     sqlite_sequence := 1 |}.

(** A title of 256 letters with a one-letter content. *)
Definition long_title_data : QueryDict :=
  [("title", replicate 256 97%N); ("content", u "x")].

(** An unsaved note whose title has 256 letters. *)
Definition long_title_note : Note :=
  {| pk := None; title := replicate 256 97%N; content := u "x" |}.

(** A changed title submitted with an empty content. *)
Definition half_valid_data : QueryDict :=
  [("title", u "Changed"); ("content", u "")].

(** Three notes, stored under the ids 3, 1 and 2. *)
Definition three_notes_db : Database :=
  {| notes_note :=
       <[2 := {| row_title := u "second"; row_content := u "two" |}]>
         (<[1 := {| row_title := u "first"; row_content := u "one" |}]>
            {[ 3 := {| row_title := u "third"; row_content := u "three" |} ]});
     sqlite_sequence := 3 |}.

(** A title submitted with a leading space. *)
Definition padded_data : QueryDict :=
  [("title", u " a"); ("content", u "b")].

(** A request that submits nothing. *)
Definition get_request : HttpRequest := {| method := "GET"; POST := [] |}.

(** ** Invariants of the store *)

(** A row as the form leaves it: both fields non-empty, without leading or
    trailing whitespace and without null characters. *)
Definition cleaned_row (row : Row) : Prop :=
  row_title row ≠ [] ∧ row_content row ≠ [] ∧
  strip (row_title row) = row_title row ∧
  strip (row_content row) = row_content row ∧
  (0%N ∉ row_title row) ∧ (0%N ∉ row_content row).

Definition rows_cleaned (db : Database) : Prop :=
  ∀ id row, notes_note db !! id = Some row → cleaned_row row.

(** The recorded sequence value is at least every key in the table. *)
Definition sequence_covers_keys (db : Database) : Prop :=
  ∀ id row, notes_note db !! id = Some row → id ≤ sqlite_sequence db.

(** * Properties *)

(** ** Cleaning *)

Definition clean_title (d : QueryDict) : list ValidationError + text :=
  clean (formfield Note_meta.title) (QueryDict_get "title" d).
Definition clean_content (d : QueryDict) : list ValidationError + text :=
  clean (formfield Note_meta.content) (QueryDict_get "content" d).

Lemma clean_inr f raw value :
  blank f = false →
  clean (formfield f) raw = inr value →
  ModelField_clean f value = [].
Proof.
  intros Hb. unfold clean, ModelField_clean, run_validators.
  cbn [formfield required form_max_length].
  rewrite Hb. cbn [negb]. rewrite andb_true_r.
  case_bool_decide as He; [done|].
  rewrite !decide_False by done.
  destruct (_ ++ _) eqn:Hv; [|done].
  intros [= <-]. rewrite decide_False by done.
  by apply app_eq_nil in Hv as [Hv _].
Qed.

Lemma clean_inl_nonempty f raw es : clean f raw = inl es → es ≠ [].
Proof.
  unfold clean. destruct (_ && _); [by intros [= <-]|].
  by destruct (run_validators _ _); [|intros [= <-]].
Qed.

Section full_clean.
Local Arguments ModelField_clean : simpl never.
Local Arguments clean : simpl never.

Local Ltac post_clean :=
  unfold _post_clean, add_error, construct_instance, clean_fields,
    getattr, setattr;
  cbn; simplify_map_eq; cbn.

(** The four outcomes of [full_clean], by the outcome of each field. Model
    validation never adds an error to a field the form accepted. *)
Lemma full_clean_unfold d inst :
  full_clean d inst =
  match clean_title d, clean_content d with
  | inr t, inr c =>
      {| errors := ∅;
         cleaned_data := <["content" := c]> (<["title" := t]> ∅);
         cleaned_instance := {| pk := pk inst; title := t; content := c |} |}
  | inl et, inr c =>
      {| errors := <["title" := et]> ∅;
         cleaned_data := <["content" := c]> (delete "title" ∅);
         cleaned_instance :=
           {| pk := pk inst; title := title inst; content := c |} |}
  | inr t, inl ec =>
      {| errors := <["content" := ec]> ∅;
         cleaned_data := delete "content" (<["title" := t]> ∅);
         cleaned_instance :=
           {| pk := pk inst; title := t; content := content inst |} |}
  | inl et, inl ec =>
      {| errors := <["content" := ec]> (<["title" := et]> ∅);
         cleaned_data := delete "content" (delete "title" ∅);
         cleaned_instance := inst |}
  end.
Proof.
  unfold full_clean, _clean_fields, clean_title, clean_content.
  cbn [foldl NoteForm_Meta.fields]. unfold clean_field.
  cbn [name Note_meta.title Note_meta.content models_CharField
       models_TextField].
  destruct (clean _ (QueryDict_get "title" d)) as [et|t] eqn:Ht;
    destruct (clean _ (QueryDict_get "content" d)) as [ec|c] eqn:Hc;
    post_clean.
  - by destruct inst.
  - by rewrite (clean_inr Note_meta.content _ c eq_refl Hc).
  - by rewrite (clean_inr Note_meta.title _ t eq_refl Ht).
  - by rewrite (clean_inr Note_meta.title _ t eq_refl Ht),
      (clean_inr Note_meta.content _ c eq_refl Hc).
Qed.
End full_clean.

(** The error dictionary of a bound form, field by field. *)
Lemma form_errors_lookup d inst field :
  form_errors (NoteForm_bound d inst) !! field =
  if decide (field = "title") then
    match clean_title d with inl es => Some es | inr _ => None end
  else if decide (field = "content") then
    match clean_content d with inl es => Some es | inr _ => None end
  else None.
Proof.
  unfold form_errors. cbn [data NoteForm_bound instance].
  rewrite full_clean_unfold.
  destruct (decide (field = "title")) as [->|?];
    [|destruct (decide (field = "content")) as [->|?]];
    destruct (clean_title d), (clean_content d); cbn [errors];
    by simplify_map_eq.
Qed.

Lemma is_valid_spec d inst :
  is_valid (NoteForm_bound d inst) = true ↔
  ∃ t c, clean_title d = inr t ∧ clean_content d = inr c.
Proof.
  unfold is_valid, is_bound, form_errors. cbn [data NoteForm_bound instance].
  rewrite bool_decide_true by eauto. cbn [andb].
  rewrite bool_decide_eq_true, full_clean_unfold.
  destruct (clean_title d) as [et|t], (clean_content d) as [ec|c];
    cbn [errors]; split; naive_solver.
Qed.

(** The verdict does not depend on the instance the form edits. *)
Lemma is_valid_instance d inst :
  is_valid (NoteForm_bound d inst) = valid_submission d.
Proof.
  unfold valid_submission.
  destruct (is_valid (NoteForm_bound d None)) eqn:H.
  - apply is_valid_spec. by apply is_valid_spec in H.
  - destruct (is_valid (NoteForm_bound d inst)) eqn:H'; [|done].
    apply is_valid_spec in H'. apply (is_valid_spec d None) in H'.
    congruence.
Qed.

(** A required form field accepts exactly the values that are present,
    non-empty once trimmed, within the length limit and free of null
    characters; the cleaned value is the trimmed one. *)
Lemma clean_formfield_inr f raw value :
  blank f = false →
  clean (formfield f) raw = inr value ↔
  strip <$> raw = Some value ∧ value ≠ [] ∧
  (∀ n, max_length f = Some n → (length value ≤ n)%nat) ∧ 0%N ∉ value.
Proof.
  intros Hb. unfold clean, run_validators, to_python,
    MaxLengthValidator, ProhibitNullCharactersValidator.
  cbn [formfield required form_max_length strip_value].
  rewrite Hb. cbn [negb]. rewrite andb_true_r.
  destruct raw as [raw|]; cbn [fmap option_fmap option_map].
  2:{ rewrite bool_decide_true by done. naive_solver. }
  case_bool_decide as He.
  { split; [done|]. intros ([= <-] & ? & _). done. }
  rewrite decide_False by done.
  destruct (max_length f) as [n|].
  - destruct (Nat.ltb_spec n (length (strip raw))) as [Hlt|Hle];
      cbn [app].
    + split; [done|]. intros ([= <-] & _ & Hn & _).
      specialize (Hn n eq_refl). lia.
    + case_decide as H0; split; try done.
      * intros ([= <-] & _ & _ & ?). done.
      * intros [= <-]. repeat split; try done. by intros ? [= <-].
      * by intros ([= <-] & _).
  - cbn [app]. case_decide as H0; split; try done.
    + intros ([= <-] & _ & _ & ?). done.
    + intros [= <-]. done.
    + by intros ([= <-] & _).
Qed.

Lemma clean_title_inr d t :
  clean_title d = inr t ↔
  trimmed "title" d = Some t ∧ t ≠ [] ∧ (length t ≤ 255)%nat ∧ 0%N ∉ t.
Proof.
  unfold clean_title, trimmed. rewrite clean_formfield_inr by done.
  cbn [max_length Note_meta.title models_CharField]. naive_solver.
Qed.

Lemma clean_content_inr d c :
  clean_content d = inr c ↔
  trimmed "content" d = Some c ∧ c ≠ [] ∧ 0%N ∉ c.
Proof.
  unfold clean_content, trimmed. rewrite clean_formfield_inr by done.
  cbn [max_length Note_meta.content models_TextField]. naive_solver.
Qed.

(** A required form field raises [required] alone on a missing value. *)
Lemma clean_formfield_missing f field d :
  blank f = false →
  missing field d →
  clean (formfield f) (QueryDict_get field d) = inl [required_error].
Proof.
  intros Hb Hm. unfold clean, to_python.
  cbn [formfield required strip_value]. rewrite Hb. cbn [negb].
  rewrite andb_true_r.
  assert (match QueryDict_get field d with
          | Some v => strip v
          | None => []
          end = []) as ->; [|done].
  unfold missing, trimmed in Hm.
  destruct (QueryDict_get field d); naive_solver.
Qed.

(** ** The database *)

Lemma max_rowid_ge (t : gmap Z Row) id r : t !! id = Some r → id ≤ max_rowid t.
Proof.
  unfold max_rowid. revert id r.
  apply (map_fold_weak_ind
           (λ (b : Z) (m : gmap Z Row), ∀ id r, m !! id = Some r → id ≤ b)).
  - intros id r. by rewrite lookup_empty.
  - intros i x m b Hi IH id r.
    destruct (decide (i = id)) as [->|Hne].
    + intros _. lia.
    + rewrite lookup_insert_ne by done. intros H%IH. lia.
Qed.

(** The key of an insert is not in use. *)
Lemma next_rowid_fresh db : notes_note db !! next_rowid db = None.
Proof.
  destruct (notes_note db !! next_rowid db) as [r|] eqn:H; [|done].
  apply max_rowid_ge in H. unfold next_rowid in H. lia.
Qed.

(** ** The views, case by case *)

Lemma save_valid d inst t c db :
  clean_title d = inr t → clean_content d = inr c →
  NoteForm_save (NoteForm_bound d inst) db =
  Note_save {| pk := pk (default Note_new inst); title := t; content := c |} db.
Proof.
  intros Ht Hc. unfold NoteForm_save. cbn [data NoteForm_bound instance].
  rewrite full_clean_unfold, Ht, Hc. cbn [errors cleaned_instance].
  by rewrite bool_decide_true.
Qed.

(** Cleaning a form again changes neither its verdict nor what it saves. *)
Lemma save_full_cleaned_valid d inst t c db :
  clean_title d = inr t → clean_content d = inr c →
  NoteForm_save (full_cleaned (NoteForm_bound d inst)) db =
  Note_save {| pk := pk (default Note_new inst); title := t; content := c |} db.
Proof.
  intros Ht Hc. unfold NoteForm_save, full_cleaned.
  cbn [data NoteForm_bound instance].
  rewrite (full_clean_unfold d (default Note_new inst)), Ht, Hc.
  cbn [cleaned_instance]. rewrite full_clean_unfold, Ht, Hc.
  cbn [errors cleaned_instance pk]. by rewrite bool_decide_true.
Qed.

Lemma serve_create_valid d db t c :
  clean_title d = inr t → clean_content d = inr c →
  serve route_create (submission d) db =
  (redirect "note_detail" (Some (next_rowid db)),
   {| notes_note :=
        <[next_rowid db := {| row_title := t; row_content := c |}]>
          (notes_note db);
      sqlite_sequence := next_rowid db |}).
Proof.
  intros Ht Hc. unfold serve, get_response, dispatch, note_create.
  cbn [method submission POST]. rewrite decide_True by done.
  unfold run_is_valid.
  assert (is_valid (NoteForm_bound d None) = true) as ->
    by (apply is_valid_spec; eauto).
  unfold bind. by rewrite (save_full_cleaned_valid d None t c).
Qed.

Lemma serve_create_invalid d db :
  valid_submission d = false →
  serve route_create (submission d) db =
  (render "notes/note_form.html"
     (ctx_form (full_cleaned (NoteForm_bound d None))), db).
Proof.
  intros Hv. unfold serve, get_response, dispatch, note_create.
  cbn [method submission POST]. rewrite decide_True by done.
  unfold run_is_valid. unfold valid_submission in Hv. by rewrite Hv.
Qed.

Lemma serve_create_get request db :
  method request ≠ "POST" →
  serve route_create request db =
  (render "notes/note_form.html" (ctx_form (NoteForm_unbound None)), db).
Proof.
  intros Hm. unfold serve, get_response, dispatch, note_create.
  by rewrite decide_False.
Qed.

Lemma serve_detail_found request id r db :
  notes_note db !! id = Some r →
  serve (route_detail id) request db =
  (render "notes/note_detail.html" (ctx_note (from_db id r)), db).
Proof.
  intros H. unfold serve, get_response, dispatch, note_detail, bind,
    get_object_or_404. by rewrite H.
Qed.

Lemma serve_detail_missing request id db :
  notes_note db !! id = None →
  serve (route_detail id) request db = (HttpResponseNotFound, db).
Proof.
  intros H. unfold serve, get_response, dispatch, note_detail, bind,
    get_object_or_404. by rewrite H.
Qed.

Lemma serve_update_missing request id db :
  notes_note db !! id = None →
  serve (route_update id) request db = (HttpResponseNotFound, db).
Proof.
  intros H. unfold serve, get_response, dispatch, note_update, bind,
    get_object_or_404. by rewrite H.
Qed.

Lemma serve_update_valid d id r db t c :
  notes_note db !! id = Some r →
  clean_title d = inr t → clean_content d = inr c →
  serve (route_update id) (submission d) db =
  (redirect "note_detail" (Some id),
   {| notes_note :=
        <[id := {| row_title := t; row_content := c |}]> (notes_note db);
      sqlite_sequence := sqlite_sequence db |}).
Proof.
  intros H Ht Hc. unfold serve, get_response, dispatch, note_update.
  unfold bind at 1. unfold get_object_or_404. rewrite H.
  cbn [method submission POST]. rewrite decide_True by done.
  unfold run_is_valid.
  assert (is_valid (NoteForm_bound d (Some (from_db id r))) = true) as ->
    by (apply is_valid_spec; eauto).
  unfold bind. rewrite (save_full_cleaned_valid d _ t c) by done.
  unfold Note_save. cbn. by rewrite H.
Qed.

Lemma serve_update_invalid d id r db :
  notes_note db !! id = Some r →
  valid_submission d = false →
  serve (route_update id) (submission d) db =
  (render "notes/note_form.html"
     (ctx_form (full_cleaned (NoteForm_bound d (Some (from_db id r))))), db).
Proof.
  intros H Hv. unfold serve, get_response, dispatch, note_update.
  unfold bind at 1. unfold get_object_or_404. rewrite H.
  cbn [method submission POST]. rewrite decide_True by done.
  unfold run_is_valid. by rewrite is_valid_instance, Hv.
Qed.

Lemma serve_update_get request id r db :
  notes_note db !! id = Some r →
  method request ≠ "POST" →
  serve (route_update id) request db =
  (render "notes/note_form.html"
     (ctx_form (NoteForm_unbound (Some (from_db id r)))), db).
Proof.
  intros H Hm. unfold serve, get_response, dispatch, note_update.
  unfold bind at 1. unfold get_object_or_404. rewrite H.
  by rewrite decide_False.
Qed.

Lemma serve_delete_missing request id db :
  notes_note db !! id = None →
  serve (route_delete id) request db = (HttpResponseNotFound, db).
Proof.
  intros H. unfold serve, get_response, dispatch, note_delete, bind,
    get_object_or_404. by rewrite H.
Qed.

Lemma serve_delete_post request id r db :
  notes_note db !! id = Some r →
  method request = "POST" →
  serve (route_delete id) request db =
  (redirect "note_list" None,
   {| notes_note := delete id (notes_note db);
      sqlite_sequence := sqlite_sequence db |}).
Proof.
  intros H Hm. unfold serve, get_response, dispatch, note_delete.
  unfold bind at 1. unfold get_object_or_404. rewrite H.
  by rewrite decide_True.
Qed.

Lemma serve_delete_get request id r db :
  notes_note db !! id = Some r →
  method request ≠ "POST" →
  serve (route_delete id) request db =
  (render "notes/note_confirm_delete.html" (ctx_note (from_db id r)), db).
Proof.
  intros H Hm. unfold serve, get_response, dispatch, note_delete.
  unfold bind at 1. unfold get_object_or_404. rewrite H.
  by rewrite decide_False.
Qed.

Lemma request_is_submission request :
  method request = "POST" → request = submission (POST request).
Proof. destruct request as [m d]. cbn. by intros ->. Qed.

Lemma valid_submission_cleaned d :
  valid_submission d = true →
  ∃ t c, clean_title d = inr t ∧ clean_content d = inr c.
Proof. apply is_valid_spec. Qed.

(** What one request can do to the table: nothing, write one row made of
    cleaned values (under a new key on create, under an existing key on
    update), or delete the row it names. *)
Lemma serve_cases r request db :
  (serve r request db).2 = db
  ∨ (∃ t c,
       clean_title (POST request) = inr t ∧
       clean_content (POST request) = inr c ∧
       ((r = route_create ∧
         notes_note (serve r request db).2 =
         <[next_rowid db := {| row_title := t; row_content := c |}]>
           (notes_note db))
        ∨ (∃ id, r = route_update id ∧ is_Some (notes_note db !! id) ∧
             notes_note (serve r request db).2 =
             <[id := {| row_title := t; row_content := c |}]>
               (notes_note db))))
  ∨ (∃ id, r = route_delete id ∧ is_Some (notes_note db !! id) ∧
       notes_note (serve r request db).2 = delete id (notes_note db)).
Proof.
  destruct r as [|id| |id|id].
  - by left.
  - left. destruct (notes_note db !! id) as [row|] eqn:H.
    + by erewrite serve_detail_found.
    + by rewrite serve_detail_missing.
  - destruct (decide (method request = "POST")) as [Hm|Hm].
    + rewrite (request_is_submission _ Hm). cbn [POST submission].
      destruct (valid_submission (POST request)) eqn:Hv.
      * destruct (valid_submission_cleaned _ Hv) as (t & c & Ht & Hc).
        right; left. exists t, c. split_and!; [done..|]. left.
        by rewrite (serve_create_valid _ _ t c).
      * left. by rewrite serve_create_invalid.
    + left. by rewrite serve_create_get.
  - destruct (notes_note db !! id) as [row|] eqn:H.
    2:{ left. by rewrite serve_update_missing. }
    destruct (decide (method request = "POST")) as [Hm|Hm].
    + rewrite (request_is_submission _ Hm). cbn [POST submission].
      destruct (valid_submission (POST request)) eqn:Hv.
      * destruct (valid_submission_cleaned _ Hv) as (t & c & Ht & Hc).
        right; left. exists t, c. split_and!; [done..|]. right.
        exists id. by rewrite (serve_update_valid _ _ row _ t c).
      * left. by erewrite serve_update_invalid.
    + left. by erewrite serve_update_get.
  - destruct (notes_note db !! id) as [row|] eqn:H.
    2:{ left. by rewrite serve_delete_missing. }
    destruct (decide (method request = "POST")) as [Hm|Hm].
    + right; right. exists id. by erewrite serve_delete_post.
    + left. by erewrite serve_delete_get.
Qed.

(** A view that finds its note answers 200 or 302. *)
Lemma serve_found_status r id row request db :
  r ∈ [route_detail id; route_update id; route_delete id] →
  notes_note db !! id = Some row →
  status_code (serve r request db).1 = 200 ∨
  status_code (serve r request db).1 = 302.
Proof.
  intros Hr H.
  destruct (decide (method request = "POST")) as [Hm|Hm];
    set_unfold; destruct Hr as [->|[->|[->|[]]]].
  - left. by erewrite serve_detail_found.
  - rewrite (request_is_submission _ Hm).
    destruct (valid_submission (POST request)) eqn:Hv.
    + destruct (valid_submission_cleaned _ Hv) as (t & c & Ht & Hc).
      right. by rewrite (serve_update_valid _ _ row _ t c).
    + left. by erewrite serve_update_invalid.
  - right. by erewrite serve_delete_post.
  - left. by erewrite serve_detail_found.
  - left. by erewrite serve_update_get.
  - left. by erewrite serve_delete_get.
Qed.

Lemma serve_absent r id request db :
  r ∈ [route_detail id; route_update id; route_delete id] →
  notes_note db !! id = None →
  serve r request db = (HttpResponseNotFound, db).
Proof.
  intros Hr H. set_unfold. destruct Hr as [->|[->|[->|[]]]].
  - by apply serve_detail_missing.
  - by apply serve_update_missing.
  - by apply serve_delete_missing.
Qed.

(** ** The list view *)

Global Instance id_le_trans : Transitive id_le.
Proof. intros x y z. unfold id_le. lia. Qed.

Global Instance id_le_total : Total id_le.
Proof. intros x y. unfold id_le. lia. Qed.

Lemma StronglySorted_strict (l : list (Z * Row)) :
  StronglySorted id_le l → NoDup l.*1 →
  StronglySorted (λ x y, x.1 < y.1) l.
Proof.
  induction 1 as [|x l Hl IH Hx]; intros Hnd; [constructor|].
  rewrite fmap_cons in Hnd. apply NoDup_cons in Hnd as [Hx' Hnd].
  constructor; [by apply IH|].
  apply Forall_forall. intros y Hy.
  rewrite Forall_forall in Hx. specialize (Hx y Hy). unfold id_le in Hx.
  assert (x.1 ≠ y.1); [|lia].
  intros Heq. apply Hx'. rewrite Heq. by apply list_elem_of_fmap_2.
Qed.

Lemma order_by_id_sorted (t : gmap Z Row) :
  StronglySorted (λ x y, x.1 < y.1) (merge_sort id_le (map_to_list t)).
Proof.
  apply StronglySorted_strict.
  - apply StronglySorted_merge_sort; apply _.
  - rewrite merge_sort_Permutation. apply NoDup_fst_map_to_list.
Qed.

(** * The claims *)

(** ** Validation *)

(** C1, as stated, fails: a submission whose title has 256 letters has both
    fields present and non-empty after trimming, and the validator reports
    it invalid. *)
Lemma long_title_is_invalid :
  ¬ missing "title" long_title_data ∧ ¬ missing "content" long_title_data ∧
  valid_submission long_title_data = false.
Proof.
  split_and!.
  - intros [H|H]; vm_compute in H; discriminate.
  - intros [H|H]; vm_compute in H; discriminate.
  - by vm_compute.
Qed.

(** C1, amended: the validator reports a submission valid exactly when both
    fields are present and non-empty after trimming, the trimmed title has at
    most 255 characters, and neither trimmed value contains a null
    character. In particular a submission with a missing title or content is
    reported invalid. *)
Theorem valid_submission_iff d :
  (valid_submission d = true ↔
   (∃ t, trimmed "title" d = Some t ∧ t ≠ [] ∧
         (length t ≤ 255)%nat ∧ 0%N ∉ t) ∧
   (∃ c, trimmed "content" d = Some c ∧ c ≠ [] ∧ 0%N ∉ c)) ∧
  (missing "title" d ∨ missing "content" d → valid_submission d = false).
Proof.
  assert (valid_submission d = true ↔
   (∃ t, trimmed "title" d = Some t ∧ t ≠ [] ∧
         (length t ≤ 255)%nat ∧ 0%N ∉ t) ∧
   (∃ c, trimmed "content" d = Some c ∧ c ≠ [] ∧ 0%N ∉ c)) as Hiff.
  { unfold valid_submission. rewrite is_valid_spec. split.
    - intros (t & c & Ht%clean_title_inr & Hc%clean_content_inr). eauto.
    - intros [(t & Ht) (c & Hc)]. exists t, c.
      by rewrite clean_title_inr, clean_content_inr. }
  split; [done|].
  intros Hm. apply not_true_is_false. rewrite Hiff.
  intros [(t & Ht & ? & _) (c & Hc & ? & _)].
  unfold missing in Hm. naive_solver.
Qed.

Lemma valid_submission_iff_witness :
  valid_submission new_note_data = true ∧ valid_submission [] = false.
Proof.
  split.
  - apply (proj1 (valid_submission_iff new_note_data)). split.
    + exists (u "New Note"). split_and!; [done|done|vm_compute; lia|].
      apply (bool_decide_unpack _). by vm_compute.
    + exists (u "New note content."). split_and!; [done|done|].
      apply (bool_decide_unpack _). by vm_compute.
  - apply (proj2 (valid_submission_iff [])). left. by left.
Defined.

(** C2: whatever else a submission holds, each of the fields [title] and
    [content] that is missing makes the form invalid and carries the single
    message "This field is required."; a submission missing both carries it
    on both. *)
Theorem required_message_on_missing_field d inst field :
  field ∈ ["title"; "content"] →
  missing field d →
  is_valid (NoteForm_bound d inst) = false ∧
  form_errors (NoteForm_bound d inst) !! field = Some [required_error] ∧
  field_messages (NoteForm_bound d inst) field = ["This field is required."].
Proof.
  intros Hf Hm.
  assert (form_errors (NoteForm_bound d inst) !! field
          = Some [required_error]) as He.
  { rewrite form_errors_lookup. set_unfold.
    destruct Hf as [->|[->|[]]].
    - rewrite decide_True by done. unfold clean_title.
      by rewrite (clean_formfield_missing Note_meta.title).
    - rewrite decide_False, decide_True by done. unfold clean_content.
      by rewrite (clean_formfield_missing Note_meta.content). }
  split_and!; [|done|].
  - apply not_true_is_false. intros (t & c & Ht & Hc)%is_valid_spec.
    rewrite form_errors_lookup in He.
    repeat case_decide; [by rewrite Ht in He|by rewrite Hc in He|done].
  - unfold field_messages. by rewrite He.
Qed.

Lemma required_message_on_missing_field_witness :
  let form := NoteForm_bound [("title", u "  ")] None in
  is_valid form = false ∧
  field_messages form "title" = ["This field is required."] ∧
  field_messages form "content" = ["This field is required."].
Proof.
  cbv zeta.
  assert (Ht : missing "title" [("title", u "  ")]) by (by right).
  assert (Hc : missing "content" [("title", u "  ")]) by (by left).
  pose proof (required_message_on_missing_field
                [("title", u "  ")] None "title"
                ltac:(set_solver) Ht) as (Hv & _ & H1).
  pose proof (required_message_on_missing_field
                [("title", u "  ")] None "content"
                ltac:(set_solver) Hc) as (_ & _ & H2).
  exact (conj Hv (conj H1 H2)).
Defined.

(** ** Unknown ids *)

(** C3: for every id, request and store, each of the detail, update and
    delete views answers NotFound (status 404) exactly when the store holds
    no note with that id, and then leaves the store as it was. *)
Theorem not_found_iff_absent r id request db :
  r ∈ [route_detail id; route_update id; route_delete id] →
  ((serve r request db).1 = HttpResponseNotFound ↔
   notes_note db !! id = None) ∧
  (status_code (serve r request db).1 = 404 ↔ notes_note db !! id = None) ∧
  ((serve r request db).1 = HttpResponseNotFound →
   (serve r request db).2 = db).
Proof.
  intros Hr. destruct (notes_note db !! id) as [row|] eqn:H.
  - pose proof (serve_found_status r id row request db Hr H) as Hs.
    split_and!.
    + split; [|done]. intros Hnf. rewrite Hnf in Hs. cbn in Hs. lia.
    + split; [|done]. lia.
    + intros Hnf. rewrite Hnf in Hs. cbn in Hs. lia.
  - by rewrite (serve_absent r id request db Hr H).
Qed.

Lemma not_found_iff_absent_witness :
  serve (route_delete 9999) (submission []) initial_db
  = (HttpResponseNotFound, initial_db).
Proof.
  pose proof (not_found_iff_absent (route_delete 9999) 9999 (submission [])
                initial_db ltac:(set_solver)) as (Hnf & _ & Hdb).
  assert (Ha : notes_note initial_db !! 9999 = None) by done.
  apply Hnf in Ha. specialize (Hdb Ha).
  destruct (serve _ _ _) as [resp db']. cbn in *. by subst.
Defined.

(** ** Create *)

(** C4, as stated, fails: the submission [" a"], ["b"] is valid, and after
    the create view has handled it no stored note has the submitted title
    [" a"]: the title was stored trimmed. *)
Lemma create_stores_trimmed_title :
  valid_submission padded_data = true ∧
  ¬ ∃ id,
      notes_note (serve route_create (submission padded_data)
                    Database_empty).2 !! id
      = Some {| row_title := u " a"; row_content := u "b" |}.
Proof.
  split; [by vm_compute|].
  rewrite (serve_create_valid padded_data Database_empty (u "a") (u "b"))
    by (by vm_compute).
  cbn [snd notes_note Database_empty]. intros [id H].
  apply lookup_insert_Some in H as [[_ H]|[_ H]]; [|by rewrite lookup_empty in H].
  vm_compute in H. discriminate.
Qed.

(** C4, amended: for every valid create submission, the create view stores
    exactly one new note, under a key that was not in use, whose title and
    content are the submitted values with leading and trailing whitespace
    removed; every other row is as before, the number of notes grows by one,
    and the response redirects to the detail view of the new note. *)
Theorem create_valid_persists_one_note d db :
  valid_submission d = true →
  ∃ id t c,
    trimmed "title" d = Some t ∧ trimmed "content" d = Some c ∧
    notes_note db !! id = None ∧
    (serve route_create (submission d) db).1
      = redirect "note_detail" (Some id) ∧
    status_code (serve route_create (submission d) db).1 = 302 ∧
    notes_note (serve route_create (submission d) db).2
      = <[id := {| row_title := t; row_content := c |}]> (notes_note db) ∧
    size (notes_note (serve route_create (submission d) db).2)
      = S (size (notes_note db)).
Proof.
  intros (t & c & Ht & Hc)%valid_submission_cleaned.
  exists (next_rowid db), t, c.
  rewrite (serve_create_valid d db t c) by done.
  cbn [fst snd notes_note status_code].
  apply clean_title_inr in Ht as (Ht & _).
  apply clean_content_inr in Hc as (Hc & _).
  split_and!; try done.
  - apply next_rowid_fresh.
  - apply map_size_insert_None, next_rowid_fresh.
Qed.

Lemma create_valid_persists_one_note_witness :
  ∃ id t c,
    trimmed "title" new_note_data = Some t ∧
    trimmed "content" new_note_data = Some c ∧
    notes_note initial_db !! id = None ∧
    (serve route_create (submission new_note_data) initial_db).1
      = redirect "note_detail" (Some id) ∧
    status_code (serve route_create (submission new_note_data) initial_db).1
      = 302 ∧
    notes_note (serve route_create (submission new_note_data) initial_db).2
      = <[id := {| row_title := t; row_content := c |}]>
          (notes_note initial_db) ∧
    size (notes_note
            (serve route_create (submission new_note_data) initial_db).2)
      = S (size (notes_note initial_db)).
Proof.
  apply (create_valid_persists_one_note new_note_data initial_db).
  vm_compute. reflexivity.
Defined.

(** ** Invalid submissions *)

Lemma full_cleaned_bound d inst :
  full_cleaned (NoteForm_bound d inst)
  = NoteForm_bound d
      (Some (cleaned_instance (full_clean d (default Note_new inst)))).
Proof. done. Qed.

Lemma field_messages_full_cleaned d inst field :
  field_messages (full_cleaned (NoteForm_bound d inst)) field
  = message <$>
      (if decide (field = "title") then
         match clean_title d with inl es => es | inr _ => [] end
       else if decide (field = "content") then
         match clean_content d with inl es => es | inr _ => [] end
       else []).
Proof.
  unfold field_messages. rewrite full_cleaned_bound, form_errors_lookup.
  repeat case_decide; [destruct (clean_title d)|destruct (clean_content d)|];
    done.
Qed.

(** The form an invalid submission is answered with, on the instance
    [default Note_new inst] the form was built on. *)
Lemma full_cleaned_invalid d inst :
  valid_submission d = false →
  data (full_cleaned (NoteForm_bound d inst)) = Some d ∧
  pk (instance (full_cleaned (NoteForm_bound d inst)))
    = pk (default Note_new inst) ∧
  is_valid (full_cleaned (NoteForm_bound d inst)) = false ∧
  (∃ field, field ∈ ["title"; "content"] ∧
     field_messages (full_cleaned (NoteForm_bound d inst)) field ≠ []) ∧
  (∀ field, field ∉ ["title"; "content"] →
     field_messages (full_cleaned (NoteForm_bound d inst)) field = []) ∧
  (∀ field, field ∈ ["title"; "content"] → missing field d →
     field_messages (full_cleaned (NoteForm_bound d inst)) field
     = ["This field is required."]) ∧
  (field_messages (full_cleaned (NoteForm_bound d inst)) "title" = [] →
   trimmed "title" d
   = Some (title (instance (full_cleaned (NoteForm_bound d inst))))) ∧
  (field_messages (full_cleaned (NoteForm_bound d inst)) "title" ≠ [] →
   title (instance (full_cleaned (NoteForm_bound d inst)))
   = title (default Note_new inst)) ∧
  (field_messages (full_cleaned (NoteForm_bound d inst)) "content" = [] →
   trimmed "content" d
   = Some (content (instance (full_cleaned (NoteForm_bound d inst))))) ∧
  (field_messages (full_cleaned (NoteForm_bound d inst)) "content" ≠ [] →
   content (instance (full_cleaned (NoteForm_bound d inst)))
   = content (default Note_new inst)).
Proof.
  intros Hv.
  assert (Hnil : ∀ es : list ValidationError, message <$> es = [] → es = [])
    by (by intros [|??]).
  split_and!.
  - done.
  - rewrite full_cleaned_bound. cbn [instance NoteForm_bound default].
    rewrite full_clean_unfold.
    by destruct (clean_title d), (clean_content d).
  - by rewrite full_cleaned_bound, is_valid_instance.
  - destruct (clean_title d) as [et|t] eqn:Ht.
    + exists "title". split; [set_solver|].
      rewrite field_messages_full_cleaned, decide_True, Ht by done.
      intros ->%Hnil. by apply clean_inl_nonempty in Ht.
    + destruct (clean_content d) as [ec|c] eqn:Hc.
      * exists "content". split; [set_solver|].
        rewrite field_messages_full_cleaned, decide_False, decide_True, Hc
          by done.
        intros ->%Hnil. by apply clean_inl_nonempty in Hc.
      * assert (valid_submission d = true); [|congruence].
        apply is_valid_spec; eauto.
  - intros field Hf. rewrite field_messages_full_cleaned.
    rewrite !decide_False; [done|set_solver..].
  - intros field Hf Hm. rewrite field_messages_full_cleaned. set_unfold.
    destruct Hf as [->|[->|[]]].
    + rewrite decide_True by done. unfold clean_title.
      by rewrite (clean_formfield_missing Note_meta.title).
    + rewrite decide_False, decide_True by done. unfold clean_content.
      by rewrite (clean_formfield_missing Note_meta.content).
  - rewrite field_messages_full_cleaned, decide_True by done.
    rewrite full_cleaned_bound. cbn [instance NoteForm_bound default].
    rewrite full_clean_unfold.
    destruct (clean_title d) as [et|t] eqn:Ht.
    { intros ->%Hnil. by apply clean_inl_nonempty in Ht. }
    intros _. apply clean_title_inr in Ht as [Ht _].
    by destruct (clean_content d).
  - rewrite field_messages_full_cleaned, decide_True by done.
    rewrite full_cleaned_bound. cbn [instance NoteForm_bound default].
    rewrite full_clean_unfold.
    destruct (clean_title d) as [et|t]; [|done].
    by destruct (clean_content d).
  - rewrite field_messages_full_cleaned, decide_False, decide_True by done.
    rewrite full_cleaned_bound. cbn [instance NoteForm_bound default].
    rewrite full_clean_unfold.
    destruct (clean_content d) as [ec|c] eqn:Hc.
    { intros ->%Hnil. by apply clean_inl_nonempty in Hc. }
    intros _. apply clean_content_inr in Hc as [Hc _].
    by destruct (clean_title d).
  - rewrite field_messages_full_cleaned, decide_False, decide_True by done.
    rewrite full_cleaned_bound. cbn [instance NoteForm_bound default].
    rewrite full_clean_unfold.
    destruct (clean_content d) as [ec|c]; [|by destruct (clean_title d)].
    by destruct (clean_title d).
Qed.

(** C5: for every invalid submission the store is left exactly as it was,
    by the create view and by the update view of any id. The create view,
    and the update view of an existing note, answer 200 with the form
    template and a form that holds the submitted data, is invalid, shows at
    least one message under [title] or [content] and none under any other
    field, and shows "This field is required." under each missing field.
    The form's instance keeps the key it had (none on create, the note's id
    on update); each field without a message holds the submitted value,
    trimmed, and each field with a message holds what it held before (empty
    on create, the stored value on update). *)
Theorem invalid_submission_rerenders_form d db :
  valid_submission d = false →
  (serve route_create (submission d) db).2 = db ∧
  (∀ id, (serve (route_update id) (submission d) db).2 = db) ∧
  ∀ r before,
    (r = route_create ∧ before = {| pk := None; title := []; content := [] |})
    ∨ (∃ id row,
         r = route_update id ∧ notes_note db !! id = Some row ∧
         before = {| pk := Some id; title := row_title row;
                     content := row_content row |}) →
    ∃ form,
      serve r (submission d) db
        = (render "notes/note_form.html" (ctx_form form), db) ∧
      status_code (serve r (submission d) db).1 = 200 ∧
      data form = Some d ∧
      pk (instance form) = pk before ∧
      is_valid form = false ∧
      (∃ field, field ∈ ["title"; "content"] ∧
                field_messages form field ≠ []) ∧
      (∀ field, field ∉ ["title"; "content"] →
                field_messages form field = []) ∧
      (∀ field, field ∈ ["title"; "content"] → missing field d →
                field_messages form field = ["This field is required."]) ∧
      (field_messages form "title" = [] →
       trimmed "title" d = Some (title (instance form))) ∧
      (field_messages form "title" ≠ [] →
       title (instance form) = title before) ∧
      (field_messages form "content" = [] →
       trimmed "content" d = Some (content (instance form))) ∧
      (field_messages form "content" ≠ [] →
       content (instance form) = content before).
Proof.
  intros Hv. split_and!.
  - by rewrite serve_create_invalid.
  - intros id. destruct (notes_note db !! id) as [row|] eqn:H.
    + by erewrite serve_update_invalid.
    + by rewrite serve_update_missing.
  - intros r before [[-> ->]|(id & row & -> & H & ->)].
    + exists (full_cleaned (NoteForm_bound d None)).
      rewrite (serve_create_invalid d db Hv).
      split; [done|]. split; [done|].
      exact (full_cleaned_invalid d None Hv).
    + exists (full_cleaned (NoteForm_bound d (Some (from_db id row)))).
      rewrite (serve_update_invalid d id row db H Hv).
      split; [done|]. split; [done|].
      exact (full_cleaned_invalid d (Some (from_db id row)) Hv).
Qed.

Lemma invalid_submission_rerenders_form_witness :
  ∃ form,
    serve (route_update 1) (submission half_valid_data) initial_db
      = (render "notes/note_form.html" (ctx_form form), initial_db) ∧
    data form = Some half_valid_data ∧
    pk (instance form) = Some 1 ∧
    title (instance form) = u "Changed" ∧
    content (instance form) = u "Initial note content." ∧
    field_messages form "title" = [] ∧
    field_messages form "content" = ["This field is required."].
Proof.
  assert (Hv : valid_submission half_valid_data = false)
    by (vm_compute; reflexivity).
  destruct (invalid_submission_rerenders_form half_valid_data initial_db Hv)
    as (_ & _ & Hform).
  destruct (Hform (route_update 1)
              {| pk := Some 1; title := u "Initial Note";
                 content := u "Initial note content." |})
    as (form & Hs & _ & Hd & Hpk & _ & _ & _ & Hreq & Ht & _ & _ & Hc).
  { right. eexists 1, _. split; [reflexivity|]. split; reflexivity. }
  assert (Hmc : field_messages form "content" = ["This field is required."]).
  { apply Hreq; [set_solver|]. right. vm_compute. reflexivity. }
  assert (Hmt : field_messages form "title" = []).
  { rewrite (serve_update_invalid half_valid_data 1 _ initial_db eq_refl Hv)
      in Hs.
    injection Hs as <-. vm_compute. reflexivity. }
  exists form. split_and!; [exact Hs|exact Hd|exact Hpk| | |exact Hmt|exact Hmc].
  - specialize (Ht Hmt). vm_compute in Ht. by injection Ht.
  - apply Hc. rewrite Hmc. discriminate.
Defined.

(** ** Update *)

(** C6, as stated, fails: after the valid update submission [" a"], ["b"]
    on the stored note 1, note 1 does not hold the submitted title [" a"]:
    the title was applied trimmed. *)
Lemma update_applies_trimmed_title :
  valid_submission padded_data = true ∧
  is_Some (notes_note initial_db !! 1) ∧
  notes_note (serve (route_update 1) (submission padded_data)
                initial_db).2 !! 1
  ≠ Some {| row_title := u " a"; row_content := u "b" |}.
Proof.
  split_and!; [by vm_compute|by eexists|].
  erewrite (serve_update_valid padded_data 1 _ initial_db (u "a") (u "b"));
    [|done|by vm_compute..].
  cbn [snd notes_note]. rewrite lookup_insert_eq.
  intros H. vm_compute in H. discriminate.
Qed.

(** C6, amended: for every existing note and every valid update submission,
    the update view writes the submitted title and content, with leading and
    trailing whitespace removed, to the row of that id; the set of ids in
    the store is as before, the detail view of the same id then shows the
    new values, and the response redirects to the detail view of that id. *)
Theorem update_valid_applies_in_place d id row db :
  notes_note db !! id = Some row →
  valid_submission d = true →
  ∃ t c,
    trimmed "title" d = Some t ∧ trimmed "content" d = Some c ∧
    (serve (route_update id) (submission d) db).1
      = redirect "note_detail" (Some id) ∧
    status_code (serve (route_update id) (submission d) db).1 = 302 ∧
    notes_note (serve (route_update id) (submission d) db).2 !! id
      = Some {| row_title := t; row_content := c |} ∧
    dom (notes_note (serve (route_update id) (submission d) db).2)
      = dom (notes_note db) ∧
    ∀ request,
      (serve (route_detail id) request
         (serve (route_update id) (submission d) db).2).1
      = render "notes/note_detail.html"
          (ctx_note {| pk := Some id; title := t; content := c |}).
Proof.
  intros H (t & c & Ht & Hc)%valid_submission_cleaned.
  exists t, c.
  rewrite (serve_update_valid d id row db t c) by done.
  cbn [fst snd notes_note status_code].
  apply clean_title_inr in Ht as (Ht & _).
  apply clean_content_inr in Hc as (Hc & _).
  split_and!; try done.
  - apply lookup_insert_eq.
  - rewrite dom_insert_L.
    assert (id ∈ dom (notes_note db)) by (apply elem_of_dom; eauto).
    set_solver.
  - intros request.
    by rewrite (serve_detail_found request id
                  {| row_title := t; row_content := c |})
      by apply lookup_insert_eq.
Qed.

Lemma update_valid_applies_in_place_witness :
  ∃ t c,
    trimmed "title" padded_data = Some t ∧
    trimmed "content" padded_data = Some c ∧
    (serve (route_update 1) (submission padded_data) initial_db).1
      = redirect "note_detail" (Some 1) ∧
    notes_note (serve (route_update 1) (submission padded_data)
                  initial_db).2 !! 1
      = Some {| row_title := t; row_content := c |}.
Proof.
  destruct (update_valid_applies_in_place padded_data 1
              {| row_title := u "Initial Note";
                 row_content := u "Initial note content." |}
              initial_db)
    as (t & c & Ht & Hc & Hr & _ & Hl & _);
    [reflexivity|vm_compute; reflexivity|].
  exists t, c. exact (conj Ht (conj Hc (conj Hr Hl))).
Defined.

(** ** Delete *)

(** C7: for every existing note, a POST to the delete view removes the note
    (a lookup of its id then fails, and the detail view answers NotFound)
    and redirects to the list view. *)
Theorem delete_removes_note id row request db :
  notes_note db !! id = Some row →
  method request = "POST" →
  (serve (route_delete id) request db).1 = redirect "note_list" None ∧
  status_code (serve (route_delete id) request db).1 = 302 ∧
  notes_note (serve (route_delete id) request db).2 !! id = None ∧
  ∀ request',
    (serve (route_detail id) request'
       (serve (route_delete id) request db).2).1 = HttpResponseNotFound.
Proof.
  intros H Hm. rewrite (serve_delete_post request id row db H Hm).
  cbn [fst snd notes_note status_code]. split_and!; try done.
  - apply lookup_delete_eq.
  - intros request'. by rewrite serve_detail_missing by apply lookup_delete_eq.
Qed.

Lemma delete_removes_note_witness :
  (serve (route_delete 1) (submission []) initial_db).1
    = redirect "note_list" None ∧
  notes_note (serve (route_delete 1) (submission []) initial_db).2 !! 1 = None.
Proof.
  pose proof (delete_removes_note 1
                {| row_title := u "Initial Note";
                   row_content := u "Initial note content." |}
                (submission []) initial_db eq_refl eq_refl)
    as (Hr & _ & Hl & _).
  exact (conj Hr Hl).
Defined.

(** ** List *)

(** C8: for every store, the empty one included, and every request, the list
    view answers 200 with the list template, leaves the store as it is, and
    passes the template exactly the stored notes, each once with its id,
    stored title and stored content, in strictly ascending order of id. *)
Theorem list_renders_all_notes_ascending request db :
  ∃ notes,
    serve route_list request db
      = (render "notes/note_list.html" (ctx_notes notes), db) ∧
    status_code (serve route_list request db).1 = 200 ∧
    StronglySorted
      (λ a b, ∃ i j, pk a = Some i ∧ pk b = Some j ∧ i < j) notes ∧
    (∀ n, n ∈ notes ↔
          ∃ id row,
            notes_note db !! id = Some row ∧
            n = {| pk := Some id; title := row_title row;
                   content := row_content row |}) ∧
    length notes = size (notes_note db) ∧
    (notes_note db = ∅ → notes = []).
Proof.
  eexists. split; [reflexivity|]. split; [reflexivity|].
  assert (Hperm : merge_sort id_le (map_to_list (notes_note db))
                  ≡ₚ map_to_list (notes_note db))
    by apply merge_sort_Permutation.
  split_and!.
  - apply (StronglySorted_fmap _ (λ x y : Z * Row, x.1 < y.1)).
    + intros [i ri] [j rj] Hij. by exists i, j.
    + apply order_by_id_sorted.
  - intros n. rewrite list_elem_of_fmap. split.
    + intros ([id row] & -> & Hin). rewrite Hperm in Hin.
      apply elem_of_map_to_list in Hin. by exists id, row.
    + intros (id & row & H & ->). exists (id, row). split; [done|].
      rewrite Hperm. by apply elem_of_map_to_list.
  - by rewrite length_fmap, Hperm, length_map_to_list.
  - intros He. apply nil_length_inv.
    by rewrite length_fmap, Hperm, length_map_to_list, He, map_size_empty.
Qed.

Lemma list_renders_all_notes_ascending_witness :
  ∃ notes,
    serve route_list get_request three_notes_db
      = (render "notes/note_list.html" (ctx_notes notes), three_notes_db) ∧
    notes = [ {| pk := Some 1; title := u "first"; content := u "one" |};
              {| pk := Some 2; title := u "second"; content := u "two" |};
              {| pk := Some 3; title := u "third"; content := u "three" |} ] ∧
    StronglySorted
      (λ a b, ∃ i j, pk a = Some i ∧ pk b = Some j ∧ i < j) notes ∧
    length notes = 3%nat.
Proof.
  destruct (list_renders_all_notes_ascending get_request three_notes_db)
    as (notes & Hs & _ & Hsorted & _ & Hlen & _).
  exists notes. split_and!; [exact Hs| |exact Hsorted|exact Hlen].
  pose proof Hs as Hs'. vm_compute in Hs'. by injection Hs'.
Defined.

(** ** The length of stored titles *)

Lemma serve_titles_within_max_length r request db :
  titles_within_max_length db →
  titles_within_max_length (serve r request db).2.
Proof.
  unfold titles_within_max_length. intros Hdb.
  destruct (serve_cases r request db)
    as [->|[(t & c & Ht & _ & Hw)|(id & _ & _ & ->)]]; [done| |].
  - apply clean_title_inr in Ht as (_ & _ & Hlen & _).
    assert (∃ id', notes_note (serve r request db).2 =
                   <[id' := {| row_title := t; row_content := c |}]>
                     (notes_note db)) as [id' ->]
      by (destruct Hw as [[_ ?]|(id' & _ & _ & ?)]; eauto).
    intros id row n Hl [= <-].
    apply lookup_insert_Some in Hl as [[_ <-]|[_ Hl]]; [done|].
    by eapply Hdb.
  - intros id' row n Hl. apply lookup_delete_Some in Hl as [_ Hl].
    by eapply Hdb.
Qed.

Lemma run_titles_within_max_length reqs db :
  titles_within_max_length db →
  titles_within_max_length (run reqs db).
Proof.
  revert db. induction reqs as [|[r request] reqs IH]; intros db Hdb; [done|].
  apply IH. by apply serve_titles_within_max_length.
Qed.

(** C9, as stated, fails: [Model.save], which [Note.objects.create] calls
    without any form, persists a note whose title has 256 characters. *)
Lemma save_persists_overlong_title :
  notes_note (Note_save long_title_note Database_empty).2 !! 1
    = Some {| row_title := replicate 256 97%N; row_content := u "x" |} ∧
  length (replicate 256 97%N) = 256%nat.
Proof. split; by vm_compute. Qed.

(** C9, amended: the limit of 255 characters on the title is enforced by the
    form, not by saving: the create and update views never persist a title
    longer than 255 characters. From a store whose titles all have at most
    255 characters, the empty store in particular, every sequence of
    requests leads to a store whose titles all have at most 255
    characters. *)
Theorem persisted_title_at_most_255 reqs db id row :
  (∀ id' row',
     notes_note db !! id' = Some row' → (length (row_title row') ≤ 255)%nat) →
  notes_note (run reqs db) !! id = Some row →
  (length (row_title row) ≤ 255)%nat.
Proof.
  intros Hdb H.
  eapply (run_titles_within_max_length reqs db); [|done..].
  intros id' row' n Hl [= <-]. by eapply Hdb.
Qed.

Lemma persisted_title_at_most_255_witness :
  notes_note
    (run [(route_create, submission long_title_data);
          (route_create, submission new_note_data);
          (route_update 1, submission long_title_data)]
       Database_empty) !! 1
    = Some {| row_title := u "New Note";
              row_content := u "New note content." |} ∧
  (length (u "New Note") ≤ 255)%nat.
Proof.
  assert (Hl : notes_note
                 (run [(route_create, submission long_title_data);
                       (route_create, submission new_note_data);
                       (route_update 1, submission long_title_data)]
                    Database_empty) !! 1
               = Some {| row_title := u "New Note";
                         row_content := u "New note content." |})
    by (vm_compute; reflexivity).
  split; [exact Hl|].
  apply (persisted_title_at_most_255 _ Database_empty 1 _) in Hl; [exact Hl|].
  intros id' row' Hl'. vm_compute in Hl'. discriminate.
Defined.

(** ** Other notes *)

(** C10: a request to the update or the delete view of an id leaves the row
    of every other id as it was, whatever the request carries, and a request
    to the create view leaves every stored note as it was. *)
Theorem other_notes_unchanged id id' request db :
  id' ≠ id →
  notes_note (serve (route_update id) request db).2 !! id'
    = notes_note db !! id' ∧
  notes_note (serve (route_delete id) request db).2 !! id'
    = notes_note db !! id' ∧
  (∀ row,
     notes_note db !! id' = Some row →
     notes_note (serve route_create request db).2 !! id' = Some row).
Proof.
  intros Hne. split_and!.
  - destruct (serve_cases (route_update id) request db)
      as [->|[(t & c & _ & _ & [[? _]|(? & [= <-] & _ & ->)])
             |(? & ? & _)]]; try done.
    by apply lookup_insert_ne.
  - destruct (serve_cases (route_delete id) request db)
      as [->|[(t & c & _ & _ & [[? _]|(? & ? & _)])
             |(? & [= <-] & _ & ->)]]; try done.
    by apply lookup_delete_ne.
  - intros row H.
    destruct (serve_cases route_create request db)
      as [->|[(t & c & _ & _ & [[_ ->]|(? & ? & _)])
             |(? & ? & _)]]; try done.
    rewrite lookup_insert_ne; [done|].
    intros Heq. by rewrite <-Heq, next_rowid_fresh in H.
Qed.

Lemma other_notes_unchanged_witness :
  (notes_note (serve (route_update 2) (submission new_note_data)
                 three_notes_db).2 !! 2
     = Some {| row_title := u "New Note";
               row_content := u "New note content." |} ∧
   notes_note (serve (route_update 2) (submission new_note_data)
                 three_notes_db).2 !! 1
     = notes_note three_notes_db !! 1) ∧
  (notes_note (serve (route_delete 2) (submission []) three_notes_db).2 !! 2
     = None ∧
   notes_note (serve (route_delete 2) (submission []) three_notes_db).2 !! 1
     = notes_note three_notes_db !! 1) ∧
  (notes_note (serve route_create (submission new_note_data)
                 three_notes_db).2 !! 4
     = Some {| row_title := u "New Note";
               row_content := u "New note content." |} ∧
   notes_note (serve route_create (submission new_note_data)
                 three_notes_db).2 !! 1
     = Some {| row_title := u "first"; row_content := u "one" |}).
Proof.
  assert (Hne : 1 ≠ 2) by lia.
  pose proof (other_notes_unchanged 2 1 (submission new_note_data)
                three_notes_db Hne) as (Hu & _ & Hc).
  pose proof (other_notes_unchanged 2 1 (submission [])
                three_notes_db Hne) as (_ & Hd & _).
  split_and!.
  - vm_compute. reflexivity.
  - exact Hu.
  - vm_compute. reflexivity.
  - exact Hd.
  - vm_compute. reflexivity.
  - apply Hc. vm_compute. reflexivity.
Defined.

(** * Further properties of the code *)

(** ** Trimming *)

Lemma lstrip_head s c s' : lstrip s = c :: s' → isspace c = false.
Proof.
  induction s as [|x s IH]; [done|]. cbn [lstrip].
  destruct (isspace x) eqn:Hx; [done|]. by intros [= <- _].
Qed.

Lemma lstrip_cons_nonspace c s : isspace c = false → lstrip (c :: s) = c :: s.
Proof. intros H. cbn [lstrip]. by rewrite H. Qed.

Lemma lstrip_snoc_nonspace s c :
  isspace c = false → ∃ q, lstrip (s ++ [c]) = q ++ [c].
Proof.
  intros Hc. induction s as [|x s [q IH]].
  - exists []. cbn. by rewrite Hc.
  - cbn [app lstrip]. destruct (isspace x).
    + by exists q.
    + by exists (x :: s).
Qed.

Lemma lstrip_idemp s : lstrip (lstrip s) = lstrip s.
Proof.
  destruct (lstrip s) as [|c s'] eqn:H; [done|].
  apply lstrip_cons_nonspace. by eapply lstrip_head.
Qed.

Lemma rstrip_idemp s : rstrip (rstrip s) = rstrip s.
Proof. unfold rstrip. by rewrite reverse_involutive, lstrip_idemp. Qed.

Lemma rstrip_cons_nonspace c s :
  isspace c = false → ∃ q, rstrip (c :: s) = c :: q.
Proof.
  intros Hc. unfold rstrip. rewrite reverse_cons.
  destruct (lstrip_snoc_nonspace (reverse s) c Hc) as [q ->].
  exists (reverse q). apply reverse_snoc.
Qed.

(** Trimming a trimmed text changes nothing. *)
Lemma strip_idemp s : strip (strip s) = strip s.
Proof.
  unfold strip at 1.
  assert (lstrip (strip s) = strip s) as ->; [|apply rstrip_idemp].
  unfold strip. destruct (lstrip s) as [|c s'] eqn:H; [done|].
  destruct (rstrip_cons_nonspace c s') as [q ->]; [by eapply lstrip_head|].
  apply lstrip_cons_nonspace. by eapply lstrip_head.
Qed.

Lemma QueryDict_get_pair (t c : text) :
  QueryDict_get "title" [("title", t); ("content", c)] = Some t ∧
  QueryDict_get "content" [("title", t); ("content", c)] = Some c.
Proof. done. Qed.

(** ** Requests that do not write *)

(** X1: the store changes only on a POST to the create, update or delete
    view: a request with any other method, and any request to the list or
    the detail view, leaves the store exactly as it was. *)
Theorem safe_requests_leave_store r request db :
  method request ≠ "POST" ∨ r = route_list ∨ (∃ id, r = route_detail id) →
  (serve r request db).2 = db.
Proof.
  intros Hsafe. destruct r as [|id| |id|id].
  - done.
  - destruct (notes_note db !! id) as [row|] eqn:H.
    + by erewrite serve_detail_found.
    + by rewrite serve_detail_missing.
  - destruct Hsafe as [Hm|[?|[? ?]]]; [|done..].
    by rewrite serve_create_get.
  - destruct Hsafe as [Hm|[?|[? ?]]]; [|done..].
    destruct (notes_note db !! id) as [row|] eqn:H.
    + by erewrite serve_update_get.
    + by rewrite serve_update_missing.
  - destruct Hsafe as [Hm|[?|[? ?]]]; [|done..].
    destruct (notes_note db !! id) as [row|] eqn:H.
    + by erewrite serve_delete_get.
    + by rewrite serve_delete_missing.
Qed.

Lemma safe_requests_leave_store_witness :
  (serve (route_delete 1) get_request initial_db).2 = initial_db ∧
  (serve (route_detail 1) (submission new_note_data) initial_db).2
    = initial_db.
Proof.
  split.
  - apply (safe_requests_leave_store (route_delete 1) get_request initial_db).
    left. discriminate.
  - apply (safe_requests_leave_store (route_detail 1)
             (submission new_note_data) initial_db).
    right; right. by exists 1.
Defined.

(** X2: for every stored note and every request, the detail view answers 200
    with the detail template and a note that carries the requested id and
    the stored title and content; the note's string form is its title. *)
Theorem detail_shows_stored_note id row request db :
  notes_note db !! id = Some row →
  ∃ note,
    serve (route_detail id) request db
      = (render "notes/note_detail.html" (ctx_note note), db) ∧
    status_code (serve (route_detail id) request db).1 = 200 ∧
    pk note = Some id ∧
    title note = row_title row ∧
    content note = row_content row ∧
    Note_str note = row_title row.
Proof.
  intros H. exists (from_db id row).
  by rewrite (serve_detail_found request id row db H).
Qed.

Lemma detail_shows_stored_note_witness :
  ∃ note,
    serve (route_detail 1) get_request initial_db
      = (render "notes/note_detail.html" (ctx_note note), initial_db) ∧
    Note_str note = u "Initial Note".
Proof.
  destruct (detail_shows_stored_note 1
              {| row_title := u "Initial Note";
                 row_content := u "Initial note content." |}
              get_request initial_db eq_refl)
    as (note & Hs & _ & _ & _ & _ & Hstr).
  exists note. exact (conj Hs Hstr).
Defined.

(** X3: a request to the create view that is not a POST answers 200 with the
    form template and an unbound form on a fresh note: no key, empty title
    and content, no error on any field. *)
Theorem create_get_renders_empty_form request db :
  method request ≠ "POST" →
  ∃ form,
    serve route_create request db
      = (render "notes/note_form.html" (ctx_form form), db) ∧
    status_code (serve route_create request db).1 = 200 ∧
    is_bound form = false ∧
    instance form = {| pk := None; title := []; content := [] |} ∧
    form_errors form = ∅ ∧
    ∀ field, field_messages form field = [].
Proof.
  intros Hm. exists (NoteForm_unbound None).
  by rewrite (serve_create_get request db Hm).
Qed.

Lemma create_get_renders_empty_form_witness :
  ∃ form,
    serve route_create get_request initial_db
      = (render "notes/note_form.html" (ctx_form form), initial_db) ∧
    is_bound form = false.
Proof.
  destruct (create_get_renders_empty_form get_request initial_db)
    as (form & Hs & _ & Hb & _); [discriminate|].
  exists form. exact (conj Hs Hb).
Defined.

(** X4: a request to the update view of a stored note that is not a POST
    answers 200 with the form template and an unbound form whose instance is
    the stored note (its id, title and content), without errors, and leaves
    the store as it was. *)
Theorem update_get_prepopulates_form id row request db :
  notes_note db !! id = Some row →
  method request ≠ "POST" →
  ∃ form,
    serve (route_update id) request db
      = (render "notes/note_form.html" (ctx_form form), db) ∧
    status_code (serve (route_update id) request db).1 = 200 ∧
    is_bound form = false ∧
    instance form
      = {| pk := Some id; title := row_title row;
           content := row_content row |} ∧
    form_errors form = ∅.
Proof.
  intros H Hm. exists (NoteForm_unbound (Some (from_db id row))).
  by rewrite (serve_update_get request id row db H Hm).
Qed.

Lemma update_get_prepopulates_form_witness :
  ∃ form,
    serve (route_update 1) get_request initial_db
      = (render "notes/note_form.html" (ctx_form form), initial_db) ∧
    instance form
      = {| pk := Some 1; title := u "Initial Note";
           content := u "Initial note content." |}.
Proof.
  destruct (update_get_prepopulates_form 1
              {| row_title := u "Initial Note";
                 row_content := u "Initial note content." |}
              get_request initial_db eq_refl)
    as (form & Hs & _ & _ & Hi & _); [discriminate|].
  exists form. exact (conj Hs Hi).
Defined.

(** X5: a request to the delete view of a stored note that is not a POST
    answers 200 with the confirmation template and the note, and deletes
    nothing: the note is still stored afterwards. *)
Theorem delete_get_asks_confirmation id row request db :
  notes_note db !! id = Some row →
  method request ≠ "POST" →
  serve (route_delete id) request db
    = (render "notes/note_confirm_delete.html"
         (ctx_note {| pk := Some id; title := row_title row;
                      content := row_content row |}), db) ∧
  status_code (serve (route_delete id) request db).1 = 200 ∧
  notes_note (serve (route_delete id) request db).2 !! id = Some row.
Proof.
  intros H Hm. by rewrite (serve_delete_get request id row db H Hm).
Qed.

Lemma delete_get_asks_confirmation_witness :
  status_code (serve (route_delete 1) get_request initial_db).1 = 200 ∧
  is_Some (notes_note (serve (route_delete 1) get_request initial_db).2 !! 1).
Proof.
  destruct (delete_get_asks_confirmation 1
              {| row_title := u "Initial Note";
                 row_content := u "Initial note content." |}
              get_request initial_db eq_refl)
    as (_ & Hs & Hl); [discriminate|].
  split; [exact Hs|]. rewrite Hl. by eexists.
Defined.

(** ** Sequences of requests *)

(** X6: after a valid create submission, the detail view of the id the
    response redirects to shows the submitted title and content, trimmed,
    under that id, and reads without writing. *)
Theorem created_note_is_shown_by_detail d db :
  valid_submission d = true →
  ∃ id t c,
    trimmed "title" d = Some t ∧ trimmed "content" d = Some c ∧
    (serve route_create (submission d) db).1
      = redirect "note_detail" (Some id) ∧
    ∀ request,
      serve (route_detail id) request (serve route_create (submission d) db).2
      = (render "notes/note_detail.html"
           (ctx_note {| pk := Some id; title := t; content := c |}),
         (serve route_create (submission d) db).2).
Proof.
  intros (t & c & Ht & Hc)%valid_submission_cleaned.
  exists (next_rowid db), t, c.
  rewrite (serve_create_valid d db t c Ht Hc). cbn [fst snd].
  apply clean_title_inr in Ht as (Ht & _).
  apply clean_content_inr in Hc as (Hc & _).
  split_and!; [done..|]. intros request.
  by rewrite (serve_detail_found request (next_rowid db)
                {| row_title := t; row_content := c |})
    by apply lookup_insert_eq.
Qed.

Lemma created_note_is_shown_by_detail_witness :
  ∃ id t c,
    trimmed "title" padded_data = Some t ∧
    trimmed "content" padded_data = Some c ∧
    (serve route_create (submission padded_data) initial_db).1
      = redirect "note_detail" (Some id) ∧
    (serve (route_detail id) get_request
       (serve route_create (submission padded_data) initial_db).2).1
    = render "notes/note_detail.html"
        (ctx_note {| pk := Some id; title := t; content := c |}).
Proof.
  destruct (created_note_is_shown_by_detail padded_data initial_db)
    as (id & t & c & Ht & Hc & Hr & Hd); [vm_compute; reflexivity|].
  exists id, t, c. split_and!; [exact Ht|exact Hc|exact Hr|].
  by rewrite (Hd get_request).
Defined.

(** X7: sending the same request to the update view of the same id twice
    gives the same response and the same store as sending it once. *)
Theorem update_twice_is_update_once id request db :
  serve (route_update id) request (serve (route_update id) request db).2
  = serve (route_update id) request db.
Proof.
  destruct (notes_note db !! id) as [row|] eqn:H.
  2:{ rewrite (serve_update_missing request id db H). cbn [snd].
      apply (serve_update_missing request id db H). }
  destruct (decide (method request = "POST")) as [Hm|Hm].
  2:{ rewrite (serve_update_get request id row db H Hm). cbn [snd].
      apply (serve_update_get request id row db H Hm). }
  rewrite (request_is_submission _ Hm).
  destruct (valid_submission (POST request)) eqn:Hv.
  2:{ rewrite (serve_update_invalid _ id row db H Hv). cbn [snd].
      apply (serve_update_invalid _ id row db H Hv). }
  destruct (valid_submission_cleaned _ Hv) as (t & c & Ht & Hc).
  rewrite (serve_update_valid _ id row db t c H Ht Hc). cbn [snd].
  erewrite serve_update_valid; [|apply lookup_insert_eq|done..].
  cbn [notes_note sqlite_sequence]. by rewrite insert_insert_eq.
Qed.

Lemma update_twice_is_update_once_witness :
  serve (route_update 1) (submission padded_data)
    (serve (route_update 1) (submission padded_data) initial_db).2
  = serve (route_update 1) (submission padded_data) initial_db.
Proof.
  exact (update_twice_is_update_once 1 (submission padded_data) initial_db).
Defined.

(** X8: a POST to the delete view of a stored note removes that id and no
    other from the set of stored ids, the number of notes drops by one, and
    a second POST to the same view answers NotFound and changes nothing. *)
Theorem delete_removes_exactly_one id row request db :
  notes_note db !! id = Some row →
  method request = "POST" →
  dom (notes_note (serve (route_delete id) request db).2)
    = dom (notes_note db) ∖ {[id]} ∧
  S (size (notes_note (serve (route_delete id) request db).2))
    = size (notes_note db) ∧
  serve (route_delete id) request (serve (route_delete id) request db).2
    = (HttpResponseNotFound, (serve (route_delete id) request db).2).
Proof.
  intros H Hm. rewrite (serve_delete_post request id row db H Hm).
  cbn [snd notes_note]. split_and!.
  - apply dom_delete_L.
  - rewrite map_size_delete, H.
    assert (size (notes_note db) ≠ 0%nat); [|lia].
    apply map_size_non_empty_iff. intros He. by rewrite He in H.
  - by rewrite serve_delete_missing by apply lookup_delete_eq.
Qed.

Lemma delete_removes_exactly_one_witness :
  S (size (notes_note (serve (route_delete 1) (submission []) initial_db).2))
  = size (notes_note initial_db).
Proof.
  destruct (delete_removes_exactly_one 1
              {| row_title := u "Initial Note";
                 row_content := u "Initial note content." |}
              (submission []) initial_db eq_refl eq_refl) as (_ & Hs & _).
  exact Hs.
Defined.

Lemma serve_not_post_unchanged r request db :
  method request ≠ "POST" → (serve r request db).2 = db.
Proof.
  intros Hm. destruct (serve_cases r request db)
    as [?|[(t & c & Ht & Hc & Hw)|(id & -> & [row H] & _)]]; [done| |].
  - destruct Hw as [[-> _]|(id & -> & [row H] & _)].
    + by rewrite serve_create_get.
    + by erewrite serve_update_get.
  - by erewrite serve_delete_get.
Qed.

(** X9: ids enter the store only through a valid POST to the create view,
    which redirects to the new id, and leave it only through a POST to the
    delete view of that id. No other request adds or removes an id. *)
Theorem ids_added_by_create_removed_by_delete r request db id :
  (notes_note db !! id = None →
   is_Some (notes_note (serve r request db).2 !! id) →
   r = route_create ∧ method request = "POST" ∧
   valid_submission (POST request) = true ∧
   (serve r request db).1 = redirect "note_detail" (Some id)) ∧
  (is_Some (notes_note db !! id) →
   notes_note (serve r request db).2 !! id = None →
   r = route_delete id ∧ method request = "POST").
Proof.
  assert (Hpost : (serve r request db).2 ≠ db → method request = "POST").
  { intros Hne. destruct (decide (method request = "POST")); [done|].
    by destruct Hne; apply serve_not_post_unchanged. }
  split.
  - intros Hnone Hsome.
    assert (Hne : (serve r request db).2 ≠ db).
    { intros Heq. rewrite Heq in Hsome. destruct Hsome. congruence. }
    destruct (serve_cases r request db)
      as [?|[(t & c & Ht & Hc & Hw)|(id' & _ & _ & Hd)]]; [done| |].
    + destruct Hw as [[-> Hw]|(id' & _ & [row' H'] & Hw)];
        rewrite Hw in Hsome.
      * assert (id = next_rowid db) as ->.
        { destruct (decide (next_rowid db = id)); [done|].
          rewrite lookup_insert_ne, Hnone in Hsome by done.
          by destruct Hsome. }
        specialize (Hpost Hne). split_and!; [done..| |].
        -- apply is_valid_spec; eauto.
        -- rewrite (request_is_submission _ Hpost).
           by rewrite (serve_create_valid _ db t c).
      * destruct (decide (id' = id)) as [->|]; [congruence|].
        rewrite lookup_insert_ne, Hnone in Hsome by done.
        by destruct Hsome.
    + rewrite Hd in Hsome. destruct Hsome as [row Hl].
      apply lookup_delete_Some in Hl as [_ Hl]. congruence.
  - intros [row Hsome] Hnone.
    assert (Hne : (serve r request db).2 ≠ db).
    { intros Heq. rewrite Heq in Hnone. congruence. }
    destruct (serve_cases r request db)
      as [?|[(t & c & Ht & Hc & Hw)|(id' & -> & _ & Hd)]]; [done| |].
    + assert (∃ id' row', notes_note (serve r request db).2
                          = <[id' := row']> (notes_note db))
        as (id' & row' & Hw')
        by (destruct Hw as [[_ ?]|(? & _ & _ & ?)]; eauto).
      rewrite Hw' in Hnone. apply lookup_insert_None in Hnone as [? _].
      congruence.
    + rewrite Hd in Hnone. apply lookup_delete_None in Hnone as [->|Hl].
      * by split; [|apply Hpost].
      * congruence.
Qed.

Lemma ids_added_by_create_removed_by_delete_witness :
  (serve route_create (submission new_note_data) initial_db).1
    = redirect "note_detail" (Some 2) ∧
  method (submission []) = "POST".
Proof.
  pose proof (ids_added_by_create_removed_by_delete route_create
                (submission new_note_data) initial_db 2) as [Hadd _].
  pose proof (ids_added_by_create_removed_by_delete (route_delete 1)
                (submission []) initial_db 1) as [_ Hdel].
  split.
  - apply Hadd; [reflexivity|]. vm_compute. by eexists.
  - apply Hdel; [by eexists|]. vm_compute. reflexivity.
Defined.

(** X10: the guards of [form.save()] and [note.delete()] never fire in the
    views. On every request and store a view either returns a 200 page,
    returns a 302 redirect, which it does only for a POST, or raises
    [Http404], which only the detail, update and delete views do, and only
    for an id that is not stored. No view raises [ValueError] or
    [AttributeError], and the list view always returns a 200 page. *)
Theorem views_raise_only_http404 r request db :
  match (dispatch r request db).1 with
  | Return response =>
      status_code response = 200 ∨
      (status_code response = 302 ∧ method request = "POST")
  | Raise e =>
      e = Http404 ∧
      ∃ id, r ∈ [route_detail id; route_update id; route_delete id] ∧
            notes_note db !! id = None
  end ∧
  (r = route_list →
   ∃ response,
     (dispatch r request db).1 = Return response ∧
     status_code response = 200).
Proof.
  split; [|intros ->; by eexists].
  destruct r as [|id| |id|id]; cbn [dispatch].
  - by left.
  - unfold note_detail, bind, get_object_or_404.
    destruct (notes_note db !! id) as [row|] eqn:H; cbn [fst].
    + by left.
    + split; [done|]. exists id. split; [set_solver|done].
  - unfold note_create, run_is_valid.
    destruct (decide (method request = "POST")) as [Hm|Hm]; [|by left].
    destruct (is_valid (NoteForm_bound (POST request) None)) eqn:Hv;
      [|by left].
    destruct (proj1 (is_valid_spec _ _) Hv) as (t & c & Ht & Hc).
    unfold bind. rewrite (save_full_cleaned_valid _ None t c db Ht Hc).
    by right.
  - unfold note_update. unfold bind at 1. unfold get_object_or_404.
    destruct (notes_note db !! id) as [row|] eqn:H.
    2:{ cbn [fst]. split; [done|]. exists id. split; [set_solver|done]. }
    unfold run_is_valid.
    destruct (decide (method request = "POST")) as [Hm|Hm]; [|by left].
    destruct (is_valid (NoteForm_bound (POST request)
                          (Some (from_db id row)))) eqn:Hv; [|by left].
    destruct (proj1 (is_valid_spec _ _) Hv) as (t & c & Ht & Hc).
    unfold bind. rewrite (save_full_cleaned_valid _ _ t c db Ht Hc).
    by right.
  - unfold note_delete. unfold bind at 1. unfold get_object_or_404.
    destruct (notes_note db !! id) as [row|] eqn:H.
    2:{ cbn [fst]. split; [done|]. exists id. split; [set_solver|done]. }
    destruct (decide (method request = "POST")) as [Hm|Hm]; [|by left].
    by right.
Qed.

Lemma views_raise_only_http404_witness :
  (status_code (redirect "note_detail" (Some 2)) = 200 ∨
   (status_code (redirect "note_detail" (Some 2)) = 302 ∧
    method (submission new_note_data) = "POST")) ∧
  (status_code (redirect "note_list" None) = 200 ∨
   (status_code (redirect "note_list" None) = 302 ∧
    method (submission []) = "POST")) ∧
  (Http404 = Http404 ∧
   ∃ id, route_update 7
           ∈ [route_detail id; route_update id; route_delete id] ∧
         notes_note initial_db !! id = None).
Proof.
  split; [|split].
  - exact (proj1 (views_raise_only_http404 route_create
                    (submission new_note_data) initial_db)).
  - exact (proj1 (views_raise_only_http404 (route_delete 1)
                    (submission []) initial_db)).
  - exact (proj1 (views_raise_only_http404 (route_update 7)
                    (submission new_note_data) initial_db)).
Defined.

(** ** What the views store *)

Lemma cleaned_values_row d t c :
  clean_title d = inr t → clean_content d = inr c →
  cleaned_row {| row_title := t; row_content := c |}.
Proof.
  intros (Ht & ? & _ & ?)%clean_title_inr (Hc & ? & ?)%clean_content_inr.
  unfold trimmed in Ht, Hc.
  destruct (QueryDict_get "title" d) as [rt|]; [|done].
  destruct (QueryDict_get "content" d) as [rc|]; [|done].
  injection Ht as <-. injection Hc as <-.
  unfold cleaned_row. cbn [row_title row_content].
  by rewrite !strip_idemp.
Qed.

Lemma serve_rows_cleaned r request db :
  rows_cleaned db → rows_cleaned (serve r request db).2.
Proof.
  unfold rows_cleaned. intros Hdb.
  destruct (serve_cases r request db)
    as [->|[(t & c & Ht & Hc & Hw)|(id & _ & _ & ->)]]; [done| |].
  - assert (∃ id', notes_note (serve r request db).2 =
                   <[id' := {| row_title := t; row_content := c |}]>
                     (notes_note db)) as [id' ->]
      by (destruct Hw as [[_ ?]|(id' & _ & _ & ?)]; eauto).
    intros id row Hl.
    apply lookup_insert_Some in Hl as [[_ <-]|[_ Hl]]; [|by eapply Hdb].
    by apply (cleaned_values_row (POST request)).
  - intros id' row Hl. apply lookup_delete_Some in Hl as [_ Hl].
    by eapply Hdb.
Qed.

Lemma run_rows_cleaned reqs db :
  rows_cleaned db → rows_cleaned (run reqs db).
Proof.
  revert db. induction reqs as [|[r request] reqs IH]; intros db Hdb; [done|].
  apply IH. by apply serve_rows_cleaned.
Qed.

Lemma empty_rows_cleaned : rows_cleaned Database_empty.
Proof.
  intros id row Hl.
  change (notes_note Database_empty) with (∅ : gmap Z Row) in Hl.
  by rewrite lookup_empty in Hl.
Qed.

Lemma empty_titles_within_max_length :
  titles_within_max_length Database_empty.
Proof.
  intros id row n Hl.
  change (notes_note Database_empty) with (∅ : gmap Z Row) in Hl.
  by rewrite lookup_empty in Hl.
Qed.

(** X11: in every store reached from the empty one through the views, every
    note has a non-empty title and a non-empty content, neither with leading
    or trailing whitespace, and neither with a null character. *)
Theorem stored_notes_are_cleaned reqs id row :
  notes_note (run reqs Database_empty) !! id = Some row →
  row_title row ≠ [] ∧ row_content row ≠ [] ∧
  strip (row_title row) = row_title row ∧
  strip (row_content row) = row_content row ∧
  (0%N ∉ row_title row) ∧ (0%N ∉ row_content row).
Proof.
  intros H.
  exact (run_rows_cleaned reqs Database_empty empty_rows_cleaned id row H).
Qed.

Lemma stored_notes_are_cleaned_witness :
  strip (u "a") = u "a" ∧ u "b" ≠ [].
Proof.
  destruct (stored_notes_are_cleaned
              [(route_create, submission padded_data)] 1
              {| row_title := u "a"; row_content := u "b" |})
    as (_ & Hc & Ht & _); [vm_compute; reflexivity|].
  exact (conj Ht Hc).
Defined.

(** X12: in a store reached through the views, posting a stored note's own
    title and content back to its update view (the edit form submitted
    without edits) is a valid submission, redirects to the note's detail
    view and leaves the store exactly as it was. *)
Theorem resubmitting_stored_values_changes_nothing reqs id row d :
  notes_note (run reqs Database_empty) !! id = Some row →
  QueryDict_get "title" d = Some (row_title row) →
  QueryDict_get "content" d = Some (row_content row) →
  valid_submission d = true ∧
  serve (route_update id) (submission d) (run reqs Database_empty)
  = (redirect "note_detail" (Some id), run reqs Database_empty).
Proof.
  intros H Ht Hc.
  destruct (run_rows_cleaned reqs Database_empty empty_rows_cleaned id row H)
    as (Ht0 & Hc0 & Hts & Hcs & Htn & Hcn).
  pose proof (run_titles_within_max_length reqs Database_empty
                empty_titles_within_max_length id row 255%nat H eq_refl)
    as Hlen.
  assert (Hct : clean_title d = inr (row_title row)).
  { apply clean_title_inr. unfold trimmed. rewrite Ht. cbn. by rewrite Hts. }
  assert (Hcc : clean_content d = inr (row_content row)).
  { apply clean_content_inr. unfold trimmed. rewrite Hc. cbn.
    by rewrite Hcs. }
  split; [apply is_valid_spec; eauto|].
  rewrite (serve_update_valid d id row _ _ _ H Hct Hcc). f_equal.
  destruct (run reqs Database_empty) as [tbl seq]. cbn in *. f_equal.
  destruct row. by apply insert_id.
Qed.

Lemma resubmitting_stored_values_changes_nothing_witness :
  serve (route_update 1) (submission new_note_data)
    (run [(route_create, submission new_note_data)] Database_empty)
  = (redirect "note_detail" (Some 1),
     run [(route_create, submission new_note_data)] Database_empty).
Proof.
  apply (resubmitting_stored_values_changes_nothing
           [(route_create, submission new_note_data)] 1
           {| row_title := u "New Note";
              row_content := u "New note content." |} new_note_data);
    vm_compute; reflexivity.
Defined.

(** X13: cleaning is stable: the cleaned title and content of a valid
    submission, submitted again as they are, form a valid submission whose
    cleaned values are the same. *)
Theorem cleaned_values_are_stable d t c :
  valid_submission d = true →
  trimmed "title" d = Some t →
  trimmed "content" d = Some c →
  valid_submission [("title", t); ("content", c)] = true ∧
  trimmed "title" [("title", t); ("content", c)] = Some t ∧
  trimmed "content" [("title", t); ("content", c)] = Some c.
Proof.
  intros (t' & c' & Ht' & Hc')%valid_submission_cleaned Ht Hc.
  pose proof (cleaned_values_row d t' c' Ht' Hc')
    as (Ht0 & Hc0 & Hts & Hcs & Htn & Hcn).
  apply clean_title_inr in Ht' as (Ht'' & _ & Hlen & _).
  apply clean_content_inr in Hc' as (Hc'' & _).
  rewrite Ht in Ht''. rewrite Hc in Hc''.
  injection Ht'' as <-. injection Hc'' as <-.
  cbn [row_title row_content] in *.
  assert (trimmed "title" [("title", t); ("content", c)] = Some t) as Et.
  { unfold trimmed. rewrite (proj1 (QueryDict_get_pair t c)).
    cbn [fmap option_fmap option_map]. by rewrite Hts. }
  assert (trimmed "content" [("title", t); ("content", c)] = Some c) as Ec.
  { unfold trimmed. rewrite (proj2 (QueryDict_get_pair t c)).
    cbn [fmap option_fmap option_map]. by rewrite Hcs. }
  split_and!; [|done..].
  apply is_valid_spec. exists t, c.
  by rewrite clean_title_inr, clean_content_inr.
Qed.

Lemma cleaned_values_are_stable_witness :
  valid_submission [("title", u "a"); ("content", u "b")] = true.
Proof.
  apply (cleaned_values_are_stable padded_data (u "a") (u "b"));
    vm_compute; reflexivity.
Defined.

(** ** The errors of the form *)




(** X15: whenever the trimmed title has more than 255 characters the form
    is invalid and the first message under [title] is "Ensure this value has
    at most 255 characters (it has N).", N being the length of the trimmed
    title. *)
Theorem overlong_title_message d inst t :
  trimmed "title" d = Some t →
  (255 < length t)%nat →
  is_valid (NoteForm_bound d inst) = false ∧
  head (field_messages (NoteForm_bound d inst) "title")
  = Some ("Ensure this value has at most 255 characters (it has "
          +:+ pretty (length t) +:+ ").").
Proof.
  intros Ht Hlen.
  assert (t ≠ []) as Hne by (intros ->; cbn in Hlen; lia).
  assert (clean_title d
          = inl (max_length_error 255 (length t)
                 :: ProhibitNullCharactersValidator t)) as Hc.
  { unfold clean_title, clean, run_validators, to_python, MaxLengthValidator.
    unfold trimmed in Ht.
    destruct (QueryDict_get "title" d) as [raw|]; [|done].
    injection Ht as Ht.
    cbn [formfield required form_max_length strip_value max_length blank
         Note_meta.title models_CharField negb].
    rewrite Ht, andb_true_r, bool_decide_false by done.
    destruct (decide (t = [])); [done|].
    by rewrite (proj2 (Nat.ltb_lt _ _) Hlen). }
  split.
  - apply not_true_is_false. intros (t' & c' & Ht' & _)%is_valid_spec.
    congruence.
  - unfold field_messages. rewrite form_errors_lookup, decide_True by done.
    rewrite Hc. cbn [default from_option]. unfold id.
    rewrite fmap_cons. cbn [head]. f_equal.
Qed.

Lemma overlong_title_message_witness :
  head (field_messages (NoteForm_bound long_title_data None) "title")
  = Some "Ensure this value has at most 255 characters (it has 256).".
Proof.
  destruct (overlong_title_message long_title_data None (replicate 256 97%N))
    as [_ Hm]; [vm_compute; reflexivity|vm_compute; lia|].
  rewrite Hm. vm_compute. reflexivity.
Defined.

(** X16: the content field has no length limit: a content that is non-empty
    after trimming and free of null characters never gets an error, however
    long it is and whatever the title is. *)
Theorem content_has_no_length_limit d inst c :
  trimmed "content" d = Some c →
  c ≠ [] →
  0%N ∉ c →
  form_errors (NoteForm_bound d inst) !! "content" = None ∧
  field_messages (NoteForm_bound d inst) "content" = [].
Proof.
  intros Hc Hne Hnull.
  assert (form_errors (NoteForm_bound d inst) !! "content" = None) as He.
  { rewrite form_errors_lookup, decide_False, decide_True by done.
    by rewrite (proj2 (clean_content_inr d c)). }
  split; [done|]. unfold field_messages. by rewrite He.
Qed.

Lemma content_has_no_length_limit_witness :
  field_messages
    (NoteForm_bound [("content", replicate 1000 97%N)] None) "content" = [].
Proof.
  apply (content_has_no_length_limit [("content", replicate 1000 97%N)] None
           (replicate 1000 97%N)).
  - vm_compute. reflexivity.
  - discriminate.
  - apply (bool_decide_unpack _). vm_compute. exact I.
Defined.

(** ** The list after a create *)

Lemma order_by_id_insert_last (m : gmap Z Row) k row :
  (∀ id r, m !! id = Some r → id < k) →
  merge_sort id_le (map_to_list (<[k := row]> m))
  = merge_sort id_le (map_to_list m) ++ [(k, row)].
Proof.
  intros Hk.
  assert (Hnone : m !! k = None).
  { destruct (m !! k) as [r|] eqn:E; [|done]. apply Hk in E. lia. }
  assert (Hperm : merge_sort id_le (map_to_list m) ++ [(k, row)]
                  ≡ₚ map_to_list (<[k := row]> m)).
  { rewrite merge_sort_Permutation, map_to_list_insert by done.
    symmetry. apply Permutation_cons_append. }
  apply (StronglySorted_unique_strong id_le).
  - intros [i1 r1] [i2 r2] H1 H2 H12 H21.
    rewrite merge_sort_Permutation in H1. rewrite Hperm in H2.
    apply elem_of_map_to_list in H1, H2. unfold id_le in H12, H21.
    cbn [fst] in H12, H21. assert (i1 = i2) as -> by lia. congruence.
  - apply StronglySorted_merge_sort; apply _.
  - apply StronglySorted_app_2.
    + intros [i1 r1] x2 H1 ->%list_elem_of_singleton.
      rewrite merge_sort_Permutation in H1.
      apply elem_of_map_to_list, Hk in H1. unfold id_le. cbn [fst]. lia.
    + apply StronglySorted_merge_sort; apply _.
    + repeat constructor.
  - by rewrite merge_sort_Permutation, Hperm.
Qed.

(** X17: after a valid create submission the list view shows the notes it
    showed before, in the same order, followed by the new note: the note
    with the id the create response redirects to and the trimmed submitted
    title and content. *)
Theorem created_note_is_listed_last d db request request' :
  valid_submission d = true →
  ∃ notes id t c,
    trimmed "title" d = Some t ∧ trimmed "content" d = Some c ∧
    (serve route_list request db).1
      = render "notes/note_list.html" (ctx_notes notes) ∧
    (serve route_create (submission d) db).1
      = redirect "note_detail" (Some id) ∧
    (serve route_list request' (serve route_create (submission d) db).2).1
      = render "notes/note_list.html"
          (ctx_notes
             (notes ++ [{| pk := Some id; title := t; content := c |}])).
Proof.
  intros (t & c & Ht & Hc)%valid_submission_cleaned.
  eexists _, (next_rowid db), t, c.
  rewrite (serve_create_valid d db t c Ht Hc). cbn [fst snd].
  apply clean_title_inr in Ht as (Ht & _).
  apply clean_content_inr in Hc as (Hc & _).
  split_and!; [done|done|reflexivity|done|].
  unfold serve, get_response, dispatch, note_list, bind,
    Note_objects_all_order_by_id, ret. cbn [fst snd notes_note].
  rewrite order_by_id_insert_last, fmap_app; [done|].
  intros id r H%max_rowid_ge. unfold next_rowid. lia.
Qed.

Lemma created_note_is_listed_last_witness :
  ∃ notes id t c,
    (serve route_list get_request initial_db).1
      = render "notes/note_list.html" (ctx_notes notes) ∧
    (serve route_list get_request
       (serve route_create (submission new_note_data) initial_db).2).1
      = render "notes/note_list.html"
          (ctx_notes
             (notes ++ [{| pk := Some id; title := t; content := c |}])).
Proof.
  destruct (created_note_is_listed_last new_note_data initial_db
              get_request get_request)
    as (notes & id & t & c & _ & _ & Hl & _ & Hl');
    [vm_compute; reflexivity|].
  exists notes, id, t, c. exact (conj Hl Hl').
Defined.

(** ** Keys *)

Lemma serve_sequence r request db :
  sqlite_sequence db ≤ sqlite_sequence (serve r request db).2 ∧
  (sequence_covers_keys db → sequence_covers_keys (serve r request db).2).
Proof.
  assert (Hsame : ∀ db', db' = db →
            sqlite_sequence db ≤ sqlite_sequence db' ∧
            (sequence_covers_keys db → sequence_covers_keys db')).
  { by intros db' ->. }
  destruct r as [|id| |id|id].
  - by apply Hsame.
  - apply Hsame. destruct (notes_note db !! id) as [row|] eqn:H.
    + by erewrite serve_detail_found.
    + by rewrite serve_detail_missing.
  - destruct (decide (method request = "POST")) as [Hm|Hm].
    2:{ apply Hsame. by rewrite serve_create_get. }
    rewrite (request_is_submission _ Hm).
    destruct (valid_submission (POST request)) eqn:Hv.
    2:{ apply Hsame. by rewrite serve_create_invalid. }
    destruct (valid_submission_cleaned _ Hv) as (t & c & Ht & Hc).
    rewrite (serve_create_valid _ db t c Ht Hc).
    cbn [snd sqlite_sequence]. unfold sequence_covers_keys.
    cbn [notes_note sqlite_sequence]. split; [unfold next_rowid; lia|].
    intros Hcov id row Hl.
    apply lookup_insert_Some in Hl as [[<- _]|[_ Hl]]; [lia|].
    apply Hcov in Hl. unfold next_rowid. lia.
  - destruct (notes_note db !! id) as [row|] eqn:H.
    2:{ apply Hsame. by rewrite serve_update_missing. }
    destruct (decide (method request = "POST")) as [Hm|Hm].
    2:{ apply Hsame. by erewrite serve_update_get. }
    rewrite (request_is_submission _ Hm).
    destruct (valid_submission (POST request)) eqn:Hv.
    2:{ apply Hsame. by erewrite serve_update_invalid. }
    destruct (valid_submission_cleaned _ Hv) as (t & c & Ht & Hc).
    rewrite (serve_update_valid _ id row db t c H Ht Hc).
    cbn [snd sqlite_sequence]. unfold sequence_covers_keys.
    cbn [notes_note sqlite_sequence]. split; [lia|].
    intros Hcov id' row' Hl.
    apply lookup_insert_Some in Hl as [[<- _]|[_ Hl]]; by eapply Hcov.
  - destruct (notes_note db !! id) as [row|] eqn:H.
    2:{ apply Hsame. by rewrite serve_delete_missing. }
    destruct (decide (method request = "POST")) as [Hm|Hm].
    2:{ apply Hsame. by erewrite serve_delete_get. }
    rewrite (serve_delete_post request id row db H Hm).
    cbn [snd sqlite_sequence]. unfold sequence_covers_keys.
    cbn [notes_note sqlite_sequence]. split; [lia|].
    intros Hcov id' row' Hl. apply lookup_delete_Some in Hl as [_ Hl].
    by eapply Hcov.
Qed.

Lemma run_sequence reqs db :
  sqlite_sequence db ≤ sqlite_sequence (run reqs db) ∧
  (sequence_covers_keys db → sequence_covers_keys (run reqs db)).
Proof.
  revert db. induction reqs as [|[r request] reqs IH]; intros db; [done|].
  cbn [run foldl]. destruct (serve_sequence r request db) as [Hle Hcov].
  destruct (IH (serve r request db).2) as [Hle' Hcov'].
  unfold run in *. cbn [fst snd] in *. split; [lia|auto].
Qed.

(** X18: ids are never reused. If an id was ever held by a note in a store
    reached through the views, then after any further requests, deletes
    included, every note created later gets a strictly larger id. *)
Theorem created_ids_are_never_reused reqs reqs' id row d id' :
  notes_note (run reqs Database_empty) !! id = Some row →
  (serve route_create (submission d)
     (run reqs' (run reqs Database_empty))).1
    = redirect "note_detail" (Some id') →
  id < id'.
Proof.
  intros H Hr.
  destruct (run_sequence reqs Database_empty) as [_ Hcov].
  assert (Hid : id ≤ sqlite_sequence (run reqs Database_empty)).
  { eapply Hcov; [|done]. intros i r Hl.
    change (notes_note Database_empty) with (∅ : gmap Z Row) in Hl.
    by rewrite lookup_empty in Hl. }
  destruct (run_sequence reqs' (run reqs Database_empty)) as [Hle _].
  destruct (valid_submission d) eqn:Hv.
  - destruct (valid_submission_cleaned _ Hv) as (t & c & Ht & Hc).
    rewrite (serve_create_valid d _ t c Ht Hc) in Hr. cbn [fst] in Hr.
    injection Hr as <-. unfold next_rowid. lia.
  - by rewrite (serve_create_invalid d _ Hv) in Hr.
Qed.

Lemma created_ids_are_never_reused_witness : 1 < 2.
Proof.
  apply (created_ids_are_never_reused
           [(route_create, submission new_note_data)]
           [(route_delete 1, submission [])]
           1 {| row_title := u "New Note";
                row_content := u "New note content." |}
           padded_data 2);
    vm_compute; reflexivity.
Defined.
